(** * SENECA: the multi-class Dice evaluator of [masks_evaluation.py]

    A shallow embedding of [prepare_prediction], [dice_single], [dice_total]
    and [evaluate_results] (file [masks_evaluation.py]) and of the guarded
    call at the end of [main] (file [evaluate.py]).

    Numeric conventions of the embedding.
    - Pixel counts, intersections, unions, organ weights and the process-wide
      accumulators [n_liver] .. [n_bones] are integers ([Z]): they are sums
      of 0/1 entries.  A binary array carries its dtype where numpy's [+]
      and [*] depend on it ([bool] against a number dtype).
    - The results of true division ([/]), of [np.mean], [np.std], [np.sum]
      over lists of scores are numpy floating-point scalars.  They are
      embedded as [npfloat]: a real number, or one of the IEEE special values
      [+inf], [-inf], [nan].  Finite arithmetic is exact (rounding to
      binary64 is not modelled); the special values follow the IEEE rules
      numpy applies to scalars (a division by zero yields [inf] or [nan] and
      a warning, never an exception).
    - Channel scores of a prediction are only ever compared with each other;
      they are rationals ([Q]). *)

From Stdlib Require Import Reals ZArith QArith List Bool Lia Lra.
Import ListNotations.

Set Implicit Arguments.

(** ** numpy floating-point scalars, without rounding *)

Module NpFloat.

Local Open Scope R_scope.

Inductive npfloat : Type :=
| Fin (r : R)
| PInf
| NInf
| NaN.

(** Sign of a real, as a three-way comparison with zero. *)
Definition Rsign (r : R) : comparison :=
  match total_order_T r 0 with
  | inleft (left _) => Lt
  | inleft (right _) => Eq
  | inright _ => Gt
  end.

(** The result of dividing something of sign [c] by zero, or of multiplying
    an infinity by something of sign [c]. *)
Definition inf_of (c : comparison) : npfloat :=
  match c with
  | Lt => NInf
  | Eq => NaN
  | Gt => PInf
  end.

Definition of_Z (z : Z) : npfloat := Fin (IZR z).

Definition of_nat (n : nat) : npfloat := Fin (INR n).

Definition fneg (x : npfloat) : npfloat :=
  match x with
  | Fin a => Fin (- a)
  | PInf => NInf
  | NInf => PInf
  | NaN => NaN
  end.

Definition fabs (x : npfloat) : npfloat :=
  match x with
  | Fin a => Fin (Rabs a)
  | PInf | NInf => PInf
  | NaN => NaN
  end.

Definition fadd (x y : npfloat) : npfloat :=
  match x, y with
  | Fin a, Fin b => Fin (a + b)
  | NaN, _ | _, NaN => NaN
  | PInf, NInf | NInf, PInf => NaN
  | PInf, _ | _, PInf => PInf
  | NInf, _ | _, NInf => NInf
  end.

Definition fsub (x y : npfloat) : npfloat := fadd x (fneg y).

Definition fmul (x y : npfloat) : npfloat :=
  match x, y with
  | Fin a, Fin b => Fin (a * b)
  | NaN, _ | _, NaN => NaN
  | PInf, Fin b | Fin b, PInf => inf_of (Rsign b)
  | NInf, Fin b | Fin b, NInf => inf_of (CompOpp (Rsign b))
  | PInf, PInf | NInf, NInf => PInf
  | PInf, NInf | NInf, PInf => NInf
  end.

Definition fdiv (x y : npfloat) : npfloat :=
  match x, y with
  | Fin a, Fin b =>
      match Rsign b with
      | Eq => inf_of (Rsign a)
      | _ => Fin (a / b)
      end
  | NaN, _ | _, NaN => NaN
  | Fin _, (PInf | NInf) => Fin 0
  | (PInf | NInf), (PInf | NInf) => NaN
  | PInf, Fin b =>
      match Rsign b with
      | Lt => NInf
      | _ => PInf
      end
  | NInf, Fin b =>
      match Rsign b with
      | Lt => PInf
      | _ => NInf
      end
  end.

Definition fsqrt (x : npfloat) : npfloat :=
  match x with
  | Fin a =>
      match Rsign a with
      | Lt => NaN
      | _ => Fin (sqrt a)
      end
  | PInf => PInf
  | NInf | NaN => NaN
  end.

(** [inf] and [nan]: the values [%.2f] prints as [inf], [-inf] or [nan]. *)
Definition is_special (x : npfloat) : Prop :=
  match x with
  | Fin _ => False
  | _ => True
  end.

(** [np.sum] of a Python list of scalars; the empty list sums to [0.0]. *)
Definition np_sum (xs : list npfloat) : npfloat :=
  fold_left fadd xs (Fin 0).

(** [np.mean]: the sum divided by the number of elements ([nan] on the empty
    list, where numpy divides [0.0] by [0]). *)
Definition np_mean (xs : list npfloat) : npfloat :=
  fdiv (np_sum xs) (of_nat (length xs)).

(** [np.std] with its default [ddof=0]:
    [sqrt(mean(abs(x - x.mean())**2))]. *)
Definition np_std (xs : list npfloat) : npfloat :=
  let m := np_mean xs in
  fsqrt (np_mean (map (fun x => let d := fabs (fsub x m) in fmul d d) xs)).

End NpFloat.
Export NpFloat.

Declare Scope npfloat_scope.
Delimit Scope npfloat_scope with npf.
Bind Scope npfloat_scope with npfloat.
Infix "+" := fadd : npfloat_scope.
Infix "-" := fsub : npfloat_scope.
Infix "*" := fmul : npfloat_scope.
Infix "/" := fdiv : npfloat_scope.

(** ** numpy arrays *)

(** A two-dimensional array is a list of rows; numpy arrays are rectangular,
    which the operations below never rely on. *)
Definition grid (A : Type) : Type := list (list A).

Definition map2 (A B C : Type) (f : A -> B -> C) (xs : list A) (ys : list B)
  : list C :=
  map (fun p => f (fst p) (snd p)) (combine xs ys).

Definition grid_map (A B : Type) (f : A -> B) (g : grid A) : grid B :=
  map (map f) g.

(** Element-wise binary operation on two arrays of one shape.  On arrays of
    different shapes numpy broadcasts or raises; the statements about
    element-wise operations below assume [same_shape]. *)
Definition grid_map2 (A B C : Type) (f : A -> B -> C) (g1 : grid A)
  (g2 : grid B) : grid C :=
  map2 (map2 f) g1 g2.

Definition same_shape (A B : Type) (g1 : grid A) (g2 : grid B) : Prop :=
  Forall2 (fun r1 r2 => length r1 = length r2) g1 g2.

Definition Zsum (xs : list Z) : Z := fold_right Z.add 0%Z xs.

(** [np.sum] over the full extent of an integer array. *)
Definition grid_sum (g : grid Z) : Z := Zsum (map Zsum g).

(** ** Classes and channels *)

(** The fixed class index mapping:
    0 background, 1 liver, 2 bladder, 3 lungs, 4 kidneys, 5 bones. *)
Inductive organ_class : Type :=
| Background | Liver | Bladder | Lungs | Kidneys | Bones.

Definition class_index (c : organ_class) : Z :=
  match c with
  | Background => 0
  | Liver => 1
  | Bladder => 2
  | Lungs => 3
  | Kidneys => 4
  | Bones => 5
  end%Z.

Definition organs : list organ_class := [Liver; Bladder; Lungs; Kidneys; Bones].

(** The last axis of an (H, W, 6) tensor: six channel values per pixel. *)
Record px6 (A : Type) : Type := Px6 {
  c_background : A;
  c_liver : A;
  c_bladder : A;
  c_lungs : A;
  c_kidneys : A;
  c_bones : A
}.

Definition channel (A : Type) (c : organ_class) (px : px6 A) : A :=
  match c with
  | Background => c_background px
  | Liver => c_liver px
  | Bladder => c_bladder px
  | Lungs => c_lungs px
  | Kidneys => c_kidneys px
  | Bones => c_bones px
  end.

Definition channels (A : Type) (px : px6 A) : list A :=
  [c_background px; c_liver px; c_bladder px; c_lungs px; c_kidneys px;
   c_bones px].

(** A prediction: per pixel, six channel scores. *)
Definition prediction : Type := grid (px6 Q).

(** A ground truth: per pixel, six binary entries, of a number dtype. *)
Definition ground_truth : Type := grid (px6 bool).

(** [true[:, :, k]] *)
Definition plane (A : Type) (c : organ_class) (t : grid (px6 A)) : grid A :=
  grid_map (channel c) t.

(** [pred == k] *)
Definition mask_eq (pred : grid Z) (k : Z) : grid bool :=
  grid_map (fun v => Z.eqb v k) pred.

(** ** prepare_prediction *)

(** [np.argmax] along one axis: scan from the left and move to a later index
    only on a strictly greater value. *)
Fixpoint argmax_from (best : Q) (best_i i : nat) (xs : list Q) : nat :=
  match xs with
  | [] => best_i
  | x :: rest =>
      match (best ?= x)%Q with
      | Lt => argmax_from x i (S i) rest
      | _ => argmax_from best best_i (S i) rest
      end
  end.

Definition argmax (xs : list Q) : nat :=
  match xs with
  | [] => 0%nat
  | x :: rest => argmax_from x 0 1 rest
  end.

(** [astype('uint8')] of an integer. *)
Definition astype_uint8 (z : Z) : Z := (z mod 256)%Z.

Definition prepare_prediction (pred : prediction) : grid Z :=
  let mask := grid_map (fun px => Z.of_nat (argmax (channels px))) pred in
  let mask := grid_map astype_uint8 mask in
  mask.

(** ** dice_single *)

(** The dtype of a binary array: numpy [bool], as [pred == k] has it, or a
    number dtype holding 0 and 1, as the planes of a ground truth have it
    ([uint8] out of [explode_img], a float dtype out of a data generator). *)
Inductive dtype : Type := np_bool | np_number.

(** A two-dimensional array of binary entries, with its dtype. *)
Record ndarray : Type := NdArray {
  dtype_of : dtype;
  cells : grid bool
}.

Definition bool_array (m : grid bool) : ndarray := NdArray np_bool m.

Definition number_array (m : grid bool) : ndarray := NdArray np_number m.

(** [a * b] on two entries, as the integer [np.sum] adds up: on two [bool]
    arrays [*] is the logical and, otherwise the arithmetic product. *)
Definition np_mul (d1 d2 : dtype) : bool -> bool -> Z :=
  match d1, d2 with
  | np_bool, np_bool => fun a b => Z.b2z (a && b)
  | _, _ => fun a b => (Z.b2z a * Z.b2z b)%Z
  end.

(** [a + b] on two entries: on two [bool] arrays [+] is the logical or,
    otherwise the arithmetic sum. *)
Definition np_add (d1 d2 : dtype) : bool -> bool -> Z :=
  match d1, d2 with
  | np_bool, np_bool => fun a b => Z.b2z (a || b)
  | _, _ => fun a b => (Z.b2z a + Z.b2z b)%Z
  end.

Definition dice_single (pred : ndarray) (truth : ndarray) : npfloat :=
  let intersection :=
    grid_sum (grid_map2 (np_mul (dtype_of pred) (dtype_of truth))
                        (cells pred) (cells truth)) in
  let union :=
    grid_sum (grid_map2 (np_add (dtype_of pred) (dtype_of truth))
                        (cells pred) (cells truth)) in
  (of_Z (2 * intersection + 1) / of_Z (union + 1))%npf.

(** ** dice_total and the process-wide accumulators *)

(** The module-level globals [n_liver] .. [n_bones]. *)
Record accum : Type := Accum {
  n_liver : Z;
  n_bladder : Z;
  n_lungs : Z;
  n_kidneys : Z;
  n_bones : Z
}.

(** Their values when the module is loaded. *)
Definition accum0 : accum := Accum 0 0 0 0 0.

(** [np.sum(true[:, :, k])] *)
Definition plane_sum (c : organ_class) (truth : ground_truth) : Z :=
  grid_sum (grid_map Z.b2z (plane c truth)).

Definition dice_total (pred : grid Z) (truth : ground_truth) (g : accum)
  : (npfloat * npfloat * npfloat * npfloat * npfloat * npfloat) * accum :=
  let dice_background :=
    dice_single (bool_array (mask_eq pred 0)) (number_array (plane Background truth)) in
  let dice_liver :=
    dice_single (bool_array (mask_eq pred 1)) (number_array (plane Liver truth)) in
  let dice_bladder :=
    dice_single (bool_array (mask_eq pred 2)) (number_array (plane Bladder truth)) in
  let dice_lungs :=
    dice_single (bool_array (mask_eq pred 3)) (number_array (plane Lungs truth)) in
  let dice_kidneys :=
    dice_single (bool_array (mask_eq pred 4)) (number_array (plane Kidneys truth)) in
  let dice_bones :=
    dice_single (bool_array (mask_eq pred 5)) (number_array (plane Bones truth)) in
  let background_w := plane_sum Background truth in
  let liver_w := plane_sum Liver truth in
  let bladder_w := plane_sum Bladder truth in
  let lungs_w := plane_sum Lungs truth in
  let kidneys_w := plane_sum Kidneys truth in
  let bones_w := plane_sum Bones truth in
  let g' :=
    {| n_liver := n_liver g + liver_w;
       n_bladder := n_bladder g + bladder_w;
       n_lungs := n_lungs g + lungs_w;
       n_kidneys := n_kidneys g + kidneys_w;
       n_bones := n_bones g + bones_w |}%Z in
  (((of_Z liver_w * dice_liver + of_Z bladder_w * dice_bladder
     + of_Z lungs_w * dice_lungs + of_Z kidneys_w * dice_kidneys
     + of_Z bones_w * dice_bones + of_Z 1)
    / of_Z (liver_w + bladder_w + lungs_w + kidneys_w + bones_w + 1),
    dice_liver * of_Z liver_w,
    dice_bladder * of_Z bladder_w,
    dice_lungs * of_Z lungs_w,
    dice_kidneys * of_Z kidneys_w,
    dice_bones * of_Z bones_w)%npf,
   g').

(** ** evaluate_results *)

Inductive exn : Type := IndexError | AssertionError.

(** A call either returns a value or raises; both leave the accumulators in
    some state. *)
Inductive outcome (A : Type) : Type :=
| Returned (a : A) (g : accum)
| Raised (e : exn) (g : accum).

Arguments Raised {A} e g.

(** The local variables of [evaluate_results] that the loop updates. *)
Record totals : Type := Totals {
  dices : list npfloat;
  dice : npfloat;
  dice_liver_total : list npfloat;
  dice_bladder_total : list npfloat;
  dice_lungs_total : list npfloat;
  dice_kidneys_total : list npfloat;
  dice_bones_total : list npfloat
}.

Definition totals0 : totals := Totals [] (of_Z 0) [] [] [] [] [].

(** One iteration of the loop, once [list_pred[i]] and [list_true[i]] have
    been read. *)
Definition loop_body (pred : prediction) (truth : ground_truth) (t : totals)
  (g : accum) : totals * accum :=
  let pred := prepare_prediction pred in
  let '((current_dice, dice_liver, dice_bladder, dice_lungs, dice_kidneys,
         dice_bones), g') := dice_total pred truth g in
  ({| dice_liver_total := dice_liver_total t ++ [dice_liver];
      dice_bladder_total := dice_bladder_total t ++ [dice_bladder];
      dice_lungs_total := dice_lungs_total t ++ [dice_lungs];
      dice_kidneys_total := dice_kidneys_total t ++ [dice_kidneys];
      dice_bones_total := dice_bones_total t ++ [dice_bones];
      dice := (dice t + current_dice)%npf;
      dices := dices t ++ [current_dice] |},
   g').

(** [for i in range(len(list_pred))]: the first argument is what remains of
    [list_pred] from index [i] on; [list_true] is read by index and raises
    [IndexError] past its end. *)
Fixpoint eval_loop (rest : list prediction) (list_true : list ground_truth)
  (i : nat) (t : totals) (g : accum) : outcome totals :=
  match rest with
  | [] => Returned t g
  | pred :: rest' =>
      match nth_error list_true i with
      | None => Raised IndexError g
      | Some truth =>
          let '(t', g') := loop_body pred truth t g in
          eval_loop rest' list_true (S i) t' g'
      end
  end.

(** The numbers handed to the [%.2f] conversions of the printed report, in
    print order. *)
Record report : Type := Report {
  slices_mean : npfloat;
  slices_std : npfloat;
  organs_mean : npfloat;
  organs_std : npfloat;
  liver_mean : npfloat;
  liver_std : npfloat;
  bladder_mean : npfloat;
  bladder_std : npfloat;
  lungs_mean : npfloat;
  lungs_std : npfloat;
  kidneys_mean : npfloat;
  kidneys_std : npfloat;
  bones_mean : npfloat;
  bones_std : npfloat
}.

Definition print_report (t : totals) (g : accum) : report :=
  let n_total := (n_liver g + n_bladder g + n_lungs g + n_kidneys g + n_bones g)%Z in
  let std_organs :=
    ((np_std (dice_liver_total t) + np_std (dice_bladder_total t)
      + np_std (dice_lungs_total t) + np_std (dice_kidneys_total t)
      + np_std (dice_bones_total t)) / of_Z n_total)%npf in
  {| slices_mean := np_mean (dices t) * of_Z 100;
     slices_std := np_std (dices t) * of_Z 100;
     organs_mean :=
       (np_sum (dice_liver_total t) + np_sum (dice_bladder_total t)
        + np_sum (dice_lungs_total t) + np_sum (dice_kidneys_total t)
        + np_sum (dice_bones_total t)) / of_Z n_total * of_Z 100;
     organs_std := std_organs * of_Z 100;
     liver_mean := np_sum (dice_liver_total t) / of_Z (n_liver g) * of_Z 100;
     liver_std := np_std (dice_liver_total t) / of_Z (n_liver g) * of_Z 100;
     bladder_mean := np_sum (dice_bladder_total t) / of_Z (n_bladder g) * of_Z 100;
     bladder_std := np_std (dice_bladder_total t) / of_Z (n_bladder g) * of_Z 100;
     lungs_mean := np_sum (dice_lungs_total t) / of_Z (n_lungs g) * of_Z 100;
     lungs_std := np_std (dice_lungs_total t) / of_Z (n_lungs g) * of_Z 100;
     kidneys_mean := np_sum (dice_kidneys_total t) / of_Z (n_kidneys g) * of_Z 100;
     kidneys_std := np_std (dice_kidneys_total t) / of_Z (n_kidneys g) * of_Z 100;
     bones_mean := np_sum (dice_bones_total t) / of_Z (n_bones g) * of_Z 100;
     bones_std := np_std (dice_bones_total t) / of_Z (n_bones g) * of_Z 100
  |}%npf.

Definition evaluate_results (list_pred : list prediction)
  (list_true : list ground_truth) (g : accum) : outcome report :=
  match eval_loop list_pred list_true 0 totals0 g with
  | Raised e g' => Raised e g'
  | Returned t g' => Returned (print_report t g') g'
  end.

(** The end of [main] in [evaluate.py]:
    [assert len(preds) == len(true)] and then [evaluate_results(preds, true)]. *)
Definition main_evaluate (preds : list prediction) (true_ : list ground_truth)
  (g : accum) : outcome report :=
  if Nat.eqb (length preds) (length true_)
  then evaluate_results preds true_ g
  else Raised AssertionError g.

(** ** The quantities the specification speaks of *)

(** Number of positive pixels of a binary mask. *)
Definition card (m : grid bool) : Z :=
  Z.of_nat (length (filter (fun b : bool => b) (concat m))).

(** Number of positive entries of one row. *)
Definition count_row (r : list bool) : Z :=
  Z.of_nat (length (filter (fun b : bool => b) r)).

(** Pixel-wise intersection of two binary masks of one shape. *)
Definition inter (p t : grid bool) : grid bool := grid_map2 andb p t.

(** Organ pixel weight: the ground-truth pixel count of a class. *)
Definition organ_weight (c : organ_class) (truth : ground_truth) : Z :=
  card (plane c truth).

(** Single-class Dice of a class: [dice_single] on the binary mask of the
    class in the decoded prediction and on the class plane of the truth. *)
Definition organ_dice (c : organ_class) (mask : grid Z) (truth : ground_truth)
  : npfloat :=
  dice_single (bool_array (mask_eq mask (class_index c)))
              (number_array (plane c truth)).

(** Per-sample weighted Dice, in the words of the specification. *)
Definition weighted_dice (mask : grid Z) (truth : ground_truth) : npfloat :=
  ((np_sum (map (fun c => of_Z (organ_weight c truth) * organ_dice c mask truth)
              organs)
    + of_Z 1)
   / of_Z (Zsum (map (fun c => organ_weight c truth) organs) + 1))%npf.

(** A sample of a dataset: a prediction and its ground truth. *)
Definition sample : Type := (prediction * ground_truth)%type.

(** Organ pixel weight times organ Dice, for one organ of one sample. *)
Definition contribution (c : organ_class) (s : sample) : npfloat :=
  (of_Z (organ_weight c (snd s))
   * organ_dice c (prepare_prediction (fst s)) (snd s))%npf.

(** Sum over all samples and all five organs of weight times Dice. *)
Definition dataset_weighted_sum (samples : list sample) : npfloat :=
  np_sum (map (fun s => np_sum (map (fun c => contribution c s) organs)) samples).

(** Sum over all samples and all five organs of the organ pixel weights. *)
Definition dataset_weight (samples : list sample) : Z :=
  Zsum (map (fun s => Zsum (map (fun c => organ_weight c (snd s)) organs)) samples).

(** The accumulator of an organ. *)
Definition n_of (c : organ_class) (g : accum) : Z :=
  match c with
  | Background => 0
  | Liver => n_liver g
  | Bladder => n_bladder g
  | Lungs => n_lungs g
  | Kidneys => n_kidneys g
  | Bones => n_bones g
  end.

Definition Rsum (xs : list R) : R := fold_right Rplus 0%R xs.

Definition to_R (x : npfloat) : R :=
  match x with
  | Fin r => r
  | _ => 0%R
  end.

(** Textbook population standard deviation of a list of reals:
    the square root of the mean squared deviation from the mean. *)
Definition pop_std (xs : list R) : R :=
  let n := INR (length xs) in
  let mu := (Rsum xs / n)%R in
  sqrt (Rsum (map (fun x => (x - mu) * (x - mu))%R xs) / n).

(** A ground truth without any organ pixel. *)
Definition no_organ_pixels (truth : ground_truth) : bool :=
  forallb
    (forallb
       (fun px : px6 bool =>
          negb (c_liver px || c_bladder px || c_lungs px || c_kidneys px
                || c_bones px)))
    truth.

(** [c] is the lowest index at which the list [xs] takes its maximum. *)
Definition first_max_at (xs : list Q) (c : nat) : Prop :=
  exists v,
    nth_error xs c = Some v
    /\ (forall j w, nth_error xs j = Some w -> (w <= v)%Q)
    /\ (forall j w, (j < c)%nat -> nth_error xs j = Some w -> (w < v)%Q).

(** Entry [(i, j)] of a two-dimensional array. *)
Definition grid_get (A : Type) (g : grid A) (i j : nat) : option A :=
  match nth_error g i with
  | Some row => nth_error row j
  | None => None
  end.

(** First component of the tuple [dice_total] returns. *)
Definition weighted_score
  (r : npfloat * npfloat * npfloat * npfloat * npfloat * npfloat) : npfloat :=
  let '(current_dice, _, _, _, _, _) := r in current_dice.

(** The list of weighted contributions the loop keeps for an organ. *)
Definition total_of (c : organ_class) (t : totals) : list npfloat :=
  match c with
  | Background => []
  | Liver => dice_liver_total t
  | Bladder => dice_bladder_total t
  | Lungs => dice_lungs_total t
  | Kidneys => dice_kidneys_total t
  | Bones => dice_bones_total t
  end.

(** The two numbers of the report line of an organ. *)
Definition mean_of (c : organ_class) (r : report) : npfloat :=
  match c with
  | Background => NaN
  | Liver => liver_mean r
  | Bladder => bladder_mean r
  | Lungs => lungs_mean r
  | Kidneys => kidneys_mean r
  | Bones => bones_mean r
  end.

Definition std_of (c : organ_class) (r : report) : npfloat :=
  match c with
  | Background => NaN
  | Liver => liver_std r
  | Bladder => bladder_std r
  | Lungs => lungs_std r
  | Kidneys => kidneys_std r
  | Bones => bones_std r
  end.

(** The loop of [evaluate_results] over samples already paired up. *)
Definition step (st : totals * accum) (s : sample) : totals * accum :=
  loop_body (fst s) (snd s) (fst st) (snd st).

Definition run (samples : list sample) (st : totals * accum) : totals * accum :=
  fold_left step samples st.

(** Total pixel weight of an organ over a dataset. *)
Definition organ_weight_sum (c : organ_class) (samples : list sample) : Z :=
  Zsum (map (fun s => organ_weight c (snd s)) samples).

(** ** The end-to-end scenario of the specification

    Two samples of 2x2 pixels: an all-liver ground truth predicted as liver
    everywhere, and an all-background ground truth predicted as background
    everywhere. *)

Definition square (A : Type) (px : A) : grid A := [[px; px]; [px; px]].

Definition liver_truth : ground_truth :=
  square (Px6 false true false false false false).

Definition background_truth : ground_truth :=
  square (Px6 true false false false false false).

Definition liver_pred : prediction :=
  square (Px6 0 1 0 0 0 0)%Q.

Definition background_pred : prediction :=
  square (Px6 1 0 0 0 0 0)%Q.

(** ** explode_img *)

(** [explode_img(img)] with its default [num_classes=6]: channel [i] of the
    result is [(img == i).astype(np.uint8)]. *)
Definition explode_img (img : grid Z) : ground_truth :=
  grid_map
    (fun v => Px6 (v =? 0) (v =? 1) (v =? 2) (v =? 3) (v =? 4) (v =? 5))%Z
    img.

(** A 0/1 array read as channel scores, as when an exploded image is handed
    to [prepare_prediction]. *)
Definition as_scores (t : ground_truth) : prediction :=
  grid_map
    (fun px =>
       Px6 (inject_Z (Z.b2z (c_background px))) (inject_Z (Z.b2z (c_liver px)))
           (inject_Z (Z.b2z (c_bladder px))) (inject_Z (Z.b2z (c_lungs px)))
           (inject_Z (Z.b2z (c_kidneys px))) (inject_Z (Z.b2z (c_bones px))))
    t.

(** A label that names one of the six classes. *)
Definition is_label (v : Z) : bool := ((0 <=? v) && (v <=? 5))%Z.

(** ** The collection loop of main (evaluate.py) *)

(** What the external collaborators hand to [main] for batch [i]: the
    result of [model.predict(x)] and the ground truths [y]. *)
Definition batch_source : Type := nat -> list prediction * list ground_truth.

(** [for j in range(args.batchsize)]: [n] iterations are left, [j] is the
    current index; [predictions[j]] and [y[j]] raise [IndexError] past the
    end. *)
Fixpoint collect_batch (predictions : list prediction) (y : list ground_truth)
  (j n : nat) (preds : list prediction) (true_ : list ground_truth)
  : option (list prediction * list ground_truth) :=
  match n with
  | O => Some (preds, true_)
  | S n' =>
      match nth_error predictions j with
      | None => None
      | Some p =>
          match nth_error y j with
          | None => None
          | Some t =>
              collect_batch predictions y (S j) n' (preds ++ [p]) (true_ ++ [t])
          end
      end
  end.

(** [for i in range(dataset_utils.cal_samples // args.batchsize)] *)
Fixpoint collect_loop (data : batch_source) (batchsize : nat) (i n : nat)
  (preds : list prediction) (true_ : list ground_truth)
  : option (list prediction * list ground_truth) :=
  match n with
  | O => Some (preds, true_)
  | S n' =>
      let '(predictions, y) := data i in
      match collect_batch predictions y 0 batchsize preds true_ with
      | None => None
      | Some (preds', true') => collect_loop data batchsize (S i) n' preds' true'
      end
  end.

Inductive main_outcome : Type :=
| MainZeroDivisionError
| MainIndexError
| MainEvaluated (o : outcome report).

(** [main] from the collection loop on: [cal_samples // batchsize] raises
    [ZeroDivisionError] on a zero batch size, [range] of a negative number is
    empty. *)
Definition main_from_loop (data : batch_source) (cal_samples batchsize : Z)
  (g : accum) : main_outcome :=
  if (batchsize =? 0)%Z then MainZeroDivisionError
  else
    match collect_loop data (Z.to_nat batchsize) 0
            (Z.to_nat (cal_samples / batchsize)) [] [] with
    | None => MainIndexError
    | Some (preds, true_) => MainEvaluated (main_evaluate preds true_ g)
    end.

(** ** scores_losses.py

    The Keras metrics work on (batch, H, W, 6) tensors of float32 scores.
    The definitions below give the value of each metric in exact arithmetic:
    finite scores are reals, the hard-coded weights are the decimals of the
    source, and the final quotient is an [npfloat].  The source returns this
    value rounded at every float32 operation; bounds that rounding preserves
    carry over, exact equalities need not (on a binary prediction equal to
    its ground truth the source's [dice] and [tversky_index] come out as
    0.99999994 and [dice_loss] as 5.96e-08, where the exact values are 1, 1
    and 0). *)

Definition tensor4 : Type := list (grid (px6 R)).

(** [y[:, :, :, k]] *)
Definition slice4 (c : organ_class) (y : tensor4) : list (grid R) :=
  map (plane c) y.

Definition Rgrid_sum (g : grid R) : R := Rsum (map Rsum g).

(** [K.sum] of a (batch, H, W) tensor. *)
Definition K_sum (t : list (grid R)) : R := Rsum (map Rgrid_sum t).

(** Element-wise binary operation on two (batch, H, W) tensors. *)
Definition tensor_map2 (f : R -> R -> R) (a b : list (grid R))
  : list (grid R) :=
  map2 (grid_map2 f) a b.

Definition same_shape4 (a b : list (grid R)) : Prop :=
  Forall2 (fun g1 g2 => same_shape g1 g2) a b.

Definition smooth : R := 1.
Definition alpha : R := 0.7.

(** [tversky_liver] .. [tversky_bones]: one body, the channel being the
    default value of [num_channel]. *)
Definition tversky_channel (num_channel : organ_class) (y_true y_pred : tensor4)
  : npfloat :=
  let t := slice4 num_channel y_true in
  let p := slice4 num_channel y_pred in
  let true_pos := K_sum (tensor_map2 Rmult t p) in
  let false_neg := K_sum (tensor_map2 (fun a b => a * (1 - b))%R t p) in
  let false_pos := K_sum (tensor_map2 (fun a b => (1 - a) * b)%R t p) in
  (Fin (true_pos + smooth)
   / Fin (true_pos + alpha * false_neg + (1 - alpha) * false_pos + smooth))%npf.

Definition tversky_liver : tensor4 -> tensor4 -> npfloat := tversky_channel Liver.
Definition tversky_bladder : tensor4 -> tensor4 -> npfloat := tversky_channel Bladder.
Definition tversky_lungs : tensor4 -> tensor4 -> npfloat := tversky_channel Lungs.
Definition tversky_kidneys : tensor4 -> tensor4 -> npfloat := tversky_channel Kidneys.
Definition tversky_bones : tensor4 -> tensor4 -> npfloat := tversky_channel Bones.

Definition liver_w : R := 1.15.
Definition bladder_w : R := 1.95.
Definition lungs_w : R := 1.
Definition kidneys_w : R := 1.55.
Definition bones_w : R := 1.
Definition weights_sum : R := liver_w + bladder_w + lungs_w + kidneys_w + bones_w.

(** [tversky_index], in exact arithmetic. *)
Definition tversky_index (y_true y_pred : tensor4) : npfloat :=
  ((Fin liver_w * tversky_liver y_true y_pred
    + Fin bladder_w * tversky_bladder y_true y_pred
    + Fin lungs_w * tversky_lungs y_true y_pred
    + Fin kidneys_w * tversky_kidneys y_true y_pred
    + Fin bones_w * tversky_bones y_true y_pred)
   / Fin weights_sum)%npf.

(** [dice_background] .. [dice_bones]: one body, the channel being the
    default value of [num_class]; [smooth] is the default argument 1.  The
    quotient is the exact one; Keras returns it rounded to float32. *)
Definition dice_channel (num_class : organ_class) (y_true y_pred : tensor4)
  : npfloat :=
  let t := slice4 num_class y_true in
  let p := slice4 num_class y_pred in
  let intersection := K_sum (tensor_map2 Rmult t p) in
  let union := (K_sum t + K_sum p)%R in
  (Fin (2 * intersection + 1) / Fin (union + 1))%npf.

Definition dice_background : tensor4 -> tensor4 -> npfloat := dice_channel Background.
Definition dice_liver : tensor4 -> tensor4 -> npfloat := dice_channel Liver.
Definition dice_bladder : tensor4 -> tensor4 -> npfloat := dice_channel Bladder.
Definition dice_lungs : tensor4 -> tensor4 -> npfloat := dice_channel Lungs.
Definition dice_kidneys : tensor4 -> tensor4 -> npfloat := dice_channel Kidneys.
Definition dice_bones : tensor4 -> tensor4 -> npfloat := dice_channel Bones.

(** The metric [dice] of scores_losses.py, in exact arithmetic: the weighted
    mean of the five organ scores, with the weights the source hard-codes.
    (The name [dice] is taken by the running sum of [evaluate_results].) *)
Definition dice_of_organs (y_true y_pred : tensor4) : npfloat :=
  ((Fin 0.23212333520332026 * dice_liver y_true y_pred
    + Fin 0.04549370195613813 * dice_bladder y_true y_pred
    + Fin 0.37348887454707363 * dice_lungs y_true y_pred
    + Fin 0.05246318852416101 * dice_kidneys y_true y_pred
    + Fin 0.2964308997693069 * dice_bones y_true y_pred)
   / Fin (0.23212333520332026 + 0.04549370195613813 + 0.37348887454707363
          + 0.05246318852416101 + 0.2964308997693069))%npf.

(** [dice_loss], in exact arithmetic. *)
Definition dice_loss (y_true y_pred : tensor4) : npfloat :=
  (Fin 1 - dice_of_organs y_true y_pred)%npf.

(** Every score of a tensor lies in [0, 1]. *)
Definition unit_scores (y : tensor4) : Prop :=
  Forall (Forall (Forall (fun px : px6 R =>
    Forall (fun v => 0 <= v <= 1)%R (channels px)))) y.

(** Every score of a tensor is 0 or 1. *)
Definition binary_scores (y : tensor4) : Prop :=
  Forall (Forall (Forall (fun px : px6 R =>
    Forall (fun v => v = 0 \/ v = 1)%R (channels px)))) y.



(** Two (batch, H, W, 6) tensors of one shape. *)
Definition same_shape_tensor (y1 y2 : tensor4) : Prop :=
  Forall2 (fun g1 g2 => same_shape g1 g2) y1 y2.

(** The pairs of corresponding scores of two (batch, H, W) tensors, in
    order. *)
Definition grid_pairs (g1 g2 : grid R) : list (R * R) :=
  concat (map2 (@combine R R) g1 g2).

Definition tensor_pairs (a b : list (grid R)) : list (R * R) :=
  concat (map2 grid_pairs a b).

Definition unit_pair (ab : R * R) : Prop :=
  (0 <= fst ab <= 1 /\ 0 <= snd ab <= 1)%R.

(** ** Arithmetic of [npfloat] *)

Section Arithmetic.

Local Open Scope R_scope.

Lemma Rsign_0 : Rsign 0 = Eq.
Proof.
  unfold Rsign. destruct (total_order_T 0 0) as [[H|H]|H]; try reflexivity; lra.
Qed.

Lemma Rsign_pos (r : R) : 0 < r -> Rsign r = Gt.
Proof.
  intros Hr. unfold Rsign.
  destruct (total_order_T r 0) as [[H|H]|H]; try reflexivity; lra.
Qed.

Lemma Rsign_neg (r : R) : r < 0 -> Rsign r = Lt.
Proof.
  intros Hr. unfold Rsign.
  destruct (total_order_T r 0) as [[H|H]|H]; try reflexivity; lra.
Qed.

Lemma Rsign_Eq_inv (r : R) : Rsign r = Eq -> r = 0.
Proof.
  unfold Rsign.
  destruct (total_order_T r 0) as [[H|H]|H]; intros E; try discriminate; exact H.
Qed.

Lemma Rsign_nonzero (r : R) : r <> 0 -> Rsign r <> Eq.
Proof. intros Hr E. apply Hr, Rsign_Eq_inv, E. Qed.

Lemma fdiv_Fin (a b : R) : b <> 0 -> fdiv (Fin a) (Fin b) = Fin (a / b).
Proof.
  intros Hb. simpl. pose proof (Rsign_nonzero Hb) as Hs.
  destruct (Rsign b); [contradiction | reflexivity | reflexivity].
Qed.

Lemma fdiv_zero_zero : fdiv (Fin 0) (Fin 0) = NaN.
Proof. simpl. rewrite Rsign_0. reflexivity. Qed.

Lemma inf_of_special (c : comparison) : is_special (inf_of c).
Proof. destruct c; exact I. Qed.

(** Whatever is divided by a zero, the quotient is [inf] or [nan]. *)
Lemma fdiv_by_zero_special (x : npfloat) : is_special (fdiv x (Fin 0)).
Proof.
  destruct x; simpl; rewrite ?Rsign_0; try exact I. apply inf_of_special.
Qed.

Lemma fmul_special_l (x : npfloat) (r : R) :
  is_special x -> is_special (fmul x (Fin r)).
Proof.
  destruct x; simpl; intros H; try contradiction; try exact I;
    apply inf_of_special.
Qed.

Lemma fadd_0_l (x : npfloat) : fadd (Fin 0) x = x.
Proof. destruct x; simpl; try reflexivity. f_equal. ring. Qed.

Lemma fadd_comm (x y : npfloat) : fadd x y = fadd y x.
Proof. destruct x, y; simpl; try reflexivity. f_equal. ring. Qed.

Lemma fadd_assoc (x y z : npfloat) : fadd x (fadd y z) = fadd (fadd x y) z.
Proof. destruct x, y, z; simpl; try reflexivity. f_equal. ring. Qed.

Lemma fmul_comm (x y : npfloat) : fmul x y = fmul y x.
Proof. destruct x, y; simpl; try reflexivity. f_equal. ring. Qed.

Lemma fsqrt_Fin (a : R) : 0 <= a -> fsqrt (Fin a) = Fin (sqrt a).
Proof.
  intros Ha. simpl. unfold Rsign.
  destruct (total_order_T a 0) as [[H|H]|H]; try reflexivity; lra.
Qed.

Lemma np_sum_snoc (xs : list npfloat) (x : npfloat) :
  np_sum (xs ++ [x]) = fadd (np_sum xs) x.
Proof. unfold np_sum. rewrite fold_left_app. reflexivity. Qed.

Lemma fold_left_fadd_Fin (rs : list R) (a : R) :
  fold_left fadd (map Fin rs) (Fin a) = Fin (a + Rsum rs).
Proof.
  revert a. induction rs as [|r rs IH]; intros a; simpl.
  - f_equal. ring.
  - rewrite IH. f_equal. ring.
Qed.

Lemma np_sum_Fin (rs : list R) : np_sum (map Fin rs) = Fin (Rsum rs).
Proof. unfold np_sum. rewrite fold_left_fadd_Fin. f_equal. ring. Qed.

Lemma fold_left_fadd_acc (xs : list npfloat) (a : npfloat) :
  fold_left fadd xs a = fadd a (np_sum xs).
Proof.
  unfold np_sum. revert a. induction xs as [|x xs IH]; intros a; cbn [fold_left].
  - destruct a; simpl; try reflexivity. f_equal. ring.
  - rewrite IH. rewrite (IH (fadd (Fin 0) x)). rewrite fadd_0_l.
    apply eq_sym, fadd_assoc.
Qed.

Lemma np_sum_cons (x : npfloat) (xs : list npfloat) :
  np_sum (x :: xs) = fadd x (np_sum xs).
Proof.
  unfold np_sum at 1. cbn [fold_left]. rewrite fold_left_fadd_acc, fadd_0_l. reflexivity.
Qed.

End Arithmetic.

(** ** Sums over binary arrays *)

Section Arrays.

Local Open Scope Z_scope.

Lemma count_row_cons (b : bool) (r : list bool) :
  count_row (b :: r) = Z.b2z b + count_row r.
Proof.
  unfold count_row. destruct b; simpl filter; simpl Z.b2z.
  - change (length (true :: filter (fun b : bool => b) r))
      with (S (length (filter (fun b : bool => b) r))).
    lia.
  - lia.
Qed.

Lemma count_row_nonneg (r : list bool) : 0 <= count_row r.
Proof. unfold count_row. lia. Qed.

Lemma card_nil : card [] = 0.
Proof. reflexivity. Qed.

Lemma card_cons (r : list bool) (m : grid bool) :
  card (r :: m) = count_row r + card m.
Proof.
  unfold card, count_row. simpl concat. rewrite filter_app, length_app. lia.
Qed.

Lemma card_nonneg (m : grid bool) : 0 <= card m.
Proof. unfold card. lia. Qed.

Lemma Zsum_cons (x : Z) (xs : list Z) : Zsum (x :: xs) = x + Zsum xs.
Proof. reflexivity. Qed.

Lemma grid_sum_cons (r : list Z) (g : grid Z) :
  grid_sum (r :: g) = Zsum r + grid_sum g.
Proof. reflexivity. Qed.

Lemma Zsum_b2z (r : list bool) : Zsum (map Z.b2z r) = count_row r.
Proof.
  induction r as [|b r IH].
  - reflexivity.
  - rewrite count_row_cons, map_cons, Zsum_cons, IH. reflexivity.
Qed.

(** [np.sum] of a binary array is its pixel count. *)
Lemma grid_sum_b2z (m : grid bool) : grid_sum (grid_map Z.b2z m) = card m.
Proof.
  induction m as [|r m IH].
  - reflexivity.
  - rewrite card_cons. unfold grid_map in *. rewrite map_cons, grid_sum_cons.
    rewrite IH, Zsum_b2z. reflexivity.
Qed.

Lemma map2_cons (A B C : Type) (f : A -> B -> C) (x : A) (xs : list A)
  (y : B) (ys : list B) :
  map2 f (x :: xs) (y :: ys) = f x y :: map2 f xs ys.
Proof. reflexivity. Qed.

Lemma map2_nil_r (A B C : Type) (f : A -> B -> C) (xs : list A) :
  map2 f xs [] = [].
Proof. destruct xs; reflexivity. Qed.

Lemma row_mul_sum (r1 r2 : list bool) :
  Zsum (map2 (fun p t => Z.b2z p * Z.b2z t) r1 r2) = count_row (map2 andb r1 r2).
Proof.
  revert r2. induction r1 as [|a r1 IH]; intros [|b r2]; try reflexivity.
  rewrite !map2_cons, count_row_cons, Zsum_cons, IH.
  destruct a, b; reflexivity.
Qed.

Lemma row_add_sum (r1 r2 : list bool) :
  length r1 = length r2 ->
  Zsum (map2 (fun p t => Z.b2z p + Z.b2z t) r1 r2) = count_row r1 + count_row r2.
Proof.
  revert r2. induction r1 as [|a r1 IH]; intros [|b r2] Hlen;
    try discriminate; try reflexivity.
  rewrite map2_cons, !count_row_cons, Zsum_cons.
  rewrite IH by (simpl in Hlen; lia). lia.
Qed.

Lemma row_add_sum_nonneg (r1 r2 : list bool) :
  0 <= Zsum (map2 (fun p t => Z.b2z p + Z.b2z t) r1 r2).
Proof.
  revert r2. induction r1 as [|a r1 IH]; intros [|b r2]; try (simpl; lia).
  rewrite map2_cons, Zsum_cons. specialize (IH r2).
  destruct a, b; simpl Z.b2z; lia.
Qed.

(** The sum of the element-wise product is the size of the intersection. *)
Lemma grid_mul_sum (p t : grid bool) :
  grid_sum (grid_map2 (fun a b => Z.b2z a * Z.b2z b) p t) = card (inter p t).
Proof.
  revert t. induction p as [|r p IH]; intros [|r' t]; try reflexivity.
  unfold inter, grid_map2 in *. rewrite !map2_cons, card_cons, grid_sum_cons.
  rewrite IH, row_mul_sum. reflexivity.
Qed.

(** The sum of the element-wise sum is the sum of the two sizes. *)
Lemma grid_add_sum (p t : grid bool) :
  same_shape p t ->
  grid_sum (grid_map2 (fun a b => Z.b2z a + Z.b2z b) p t) = card p + card t.
Proof.
  intros H. induction H as [|r r' p t Hr Hs IH].
  - reflexivity.
  - unfold grid_map2 in *. rewrite map2_cons, !card_cons, grid_sum_cons.
    rewrite IH, row_add_sum by exact Hr. lia.
Qed.

Lemma grid_add_sum_nonneg (p t : grid bool) :
  0 <= grid_sum (grid_map2 (fun a b => Z.b2z a + Z.b2z b) p t).
Proof.
  revert t. induction p as [|r p IH]; intros [|r' t]; try (cbv; discriminate).
  unfold grid_map2 in *. rewrite map2_cons, grid_sum_cons.
  specialize (IH t). pose proof (row_add_sum_nonneg r r'). lia.
Qed.

Lemma same_shape_refl (A : Type) (m : grid A) : same_shape m m.
Proof. induction m; constructor; auto. Qed.

Lemma inter_self (m : grid bool) : card (inter m m) = card m.
Proof.
  induction m as [|r m IH]; [reflexivity|].
  unfold inter, grid_map2 in *. rewrite map2_cons, !card_cons, IH.
  f_equal. clear. induction r as [|b r IH]; [reflexivity|].
  rewrite map2_cons, !count_row_cons, IH. destruct b; reflexivity.
Qed.

Lemma inter_le_l (p t : grid bool) : card (inter p t) <= card p.
Proof.
  revert t. induction p as [|r p IH]; intros [|r' t];
    try (unfold inter, grid_map2; rewrite ?map2_nil_r; apply card_nonneg).
  unfold inter, grid_map2 in *. rewrite map2_cons, !card_cons.
  specialize (IH t).
  assert (count_row (map2 andb r r') <= count_row r).
  { clear. revert r'. induction r as [|b r IH]; intros [|b' r'];
      try (rewrite ?map2_nil_r; apply count_row_nonneg).
    rewrite map2_cons, !count_row_cons. specialize (IH r').
    destruct b, b'; cbn [andb Z.b2z]; lia. }
  lia.
Qed.

End Arrays.

(** ** dice_single *)

Section DiceSingle.

Local Open Scope R_scope.

Lemma row_map2_nonneg (f : bool -> bool -> Z) (r1 r2 : list bool) :
  (forall a b, (0 <= f a b)%Z) -> (0 <= Zsum (map2 f r1 r2))%Z.
Proof.
  intros Hf. revert r2. induction r1 as [|a r1 IH]; intros [|b r2];
    try (cbv; discriminate).
  rewrite map2_cons, Zsum_cons. specialize (IH r2). specialize (Hf a b). lia.
Qed.

Lemma grid_map2_nonneg (f : bool -> bool -> Z) (p t : grid bool) :
  (forall a b, (0 <= f a b)%Z) -> (0 <= grid_sum (grid_map2 f p t))%Z.
Proof.
  intros Hf. revert t. induction p as [|r p IH]; intros [|r' t];
    try (cbv; discriminate).
  unfold grid_map2 in *. rewrite map2_cons, grid_sum_cons.
  specialize (IH t). pose proof (@row_map2_nonneg f r r' Hf). lia.
Qed.

Lemma np_add_nonneg (d1 d2 : dtype) (a b : bool) : (0 <= np_add d1 d2 a b)%Z.
Proof. destruct d1, d2, a, b; cbv; discriminate. Qed.

(** The denominator [union + 1] is at least 1, so [dice_single] is finite. *)
Lemma dice_single_Fin (pred truth : ndarray) :
  exists r, dice_single pred truth = Fin r.
Proof.
  unfold dice_single, of_Z.
  pose proof (@grid_map2_nonneg _ (cells pred) (cells truth)
                (np_add_nonneg (dtype_of pred) (dtype_of truth))) as Hu.
  eexists. apply fdiv_Fin. apply not_0_IZR. lia.
Qed.

Lemma row_and_sum (r1 r2 : list bool) :
  Zsum (map2 (fun a b => Z.b2z (a && b)) r1 r2) = count_row (map2 andb r1 r2).
Proof.
  revert r2. induction r1 as [|a r1 IH]; intros [|b r2]; try reflexivity.
  rewrite !map2_cons, count_row_cons, Zsum_cons, IH. reflexivity.
Qed.

Lemma grid_and_sum (p t : grid bool) :
  grid_sum (grid_map2 (fun a b => Z.b2z (a && b)) p t) = card (inter p t).
Proof.
  revert t. induction p as [|r p IH]; intros [|r' t]; try reflexivity.
  unfold inter, grid_map2 in *. rewrite !map2_cons, card_cons, grid_sum_cons.
  rewrite IH, row_and_sum. reflexivity.
Qed.

Lemma row_or_sum (r1 r2 : list bool) :
  length r1 = length r2 ->
  Zsum (map2 (fun a b => Z.b2z (a || b)) r1 r2)
  = (count_row r1 + count_row r2 - count_row (map2 andb r1 r2))%Z.
Proof.
  revert r2. induction r1 as [|a r1 IH]; intros [|b r2] Hlen;
    try discriminate; try reflexivity.
  rewrite !map2_cons, !count_row_cons, Zsum_cons.
  rewrite IH by (cbn [length] in Hlen; lia).
  destruct a, b; cbn [orb andb Z.b2z]; lia.
Qed.

(** On two [bool] arrays the sum of [pred + true] is the size of the union. *)
Lemma grid_or_sum (p t : grid bool) :
  same_shape p t ->
  grid_sum (grid_map2 (fun a b => Z.b2z (a || b)) p t)
  = (card p + card t - card (inter p t))%Z.
Proof.
  intros H. induction H as [|r r' p t Hr Hs IH].
  - reflexivity.
  - unfold inter, grid_map2 in *.
    rewrite !map2_cons, !card_cons, grid_sum_cons.
    rewrite IH, row_or_sum by exact Hr. lia.
Qed.

Lemma dtype_eq_bool (d1 d2 : dtype) :
  (d1 = np_bool /\ d2 = np_bool) \/ (d1 = np_number \/ d2 = np_number).
Proof. destruct d1, d2; auto. Qed.

(** With at least one array of a number dtype [*] and [+] are arithmetic. *)
Lemma dice_single_number (d1 d2 : dtype) (p t : grid bool) :
  same_shape p t ->
  d1 = np_number \/ d2 = np_number ->
  dice_single (NdArray d1 p) (NdArray d2 t)
  = Fin ((2 * IZR (card (inter p t)) + 1) / (IZR (card p) + IZR (card t) + 1)).
Proof.
  intros Hshape Hd.
  pose proof (card_nonneg p) as Hp. pose proof (card_nonneg t) as Ht.
  apply IZR_le in Hp, Ht.
  assert (E : dice_single (NdArray d1 p) (NdArray d2 t)
              = (of_Z (2 * grid_sum (grid_map2 (fun a b => Z.b2z a * Z.b2z b)%Z p t) + 1)
                 / of_Z (grid_sum (grid_map2 (fun a b => Z.b2z a + Z.b2z b)%Z p t) + 1))%npf).
  { destruct d1, d2; try reflexivity. destruct Hd; discriminate. }
  rewrite E. unfold of_Z.
  rewrite grid_mul_sum, (grid_add_sum Hshape), !plus_IZR, mult_IZR.
  apply fdiv_Fin. lra.
Qed.

(** On two [bool] arrays the denominator counts the union. *)
Lemma dice_single_bools (p t : grid bool) :
  same_shape p t ->
  dice_single (bool_array p) (bool_array t)
  = Fin ((2 * IZR (card (inter p t)) + 1)
         / (IZR (card p) + IZR (card t) - IZR (card (inter p t)) + 1)).
Proof.
  intros Hshape.
  pose proof (card_nonneg p) as Hp. pose proof (inter_le_l p t) as Hl.
  pose proof (card_nonneg t) as Ht.
  apply IZR_le in Hp, Ht, Hl.
  unfold dice_single, of_Z, bool_array. cbn [dtype_of cells np_mul np_add].
  rewrite grid_and_sum, (grid_or_sum Hshape), !plus_IZR, minus_IZR, plus_IZR,
    mult_IZR.
  apply fdiv_Fin. lra.
Qed.

End DiceSingle.

(** ** Claims on [dice_single] *)

Section DiceSingleClaims.

Local Open Scope R_scope.




End DiceSingleClaims.

(** ** dice_total *)

Section DiceTotal.

Local Open Scope npfloat_scope.

Lemma plane_sum_weight (c : organ_class) (truth : ground_truth) :
  plane_sum c truth = organ_weight c truth.
Proof. unfold plane_sum, organ_weight. apply grid_sum_b2z. Qed.

Lemma np_sum_5 (a b c d e : npfloat) :
  np_sum [a; b; c; d; e] = a + b + c + d + e.
Proof. unfold np_sum. cbn [fold_left]. rewrite fadd_0_l. reflexivity. Qed.

Lemma weighted_dice_unfold (mask : grid Z) (truth : ground_truth) :
  weighted_dice mask truth
  = (of_Z (organ_weight Liver truth) * organ_dice Liver mask truth
     + of_Z (organ_weight Bladder truth) * organ_dice Bladder mask truth
     + of_Z (organ_weight Lungs truth) * organ_dice Lungs mask truth
     + of_Z (organ_weight Kidneys truth) * organ_dice Kidneys mask truth
     + of_Z (organ_weight Bones truth) * organ_dice Bones mask truth
     + of_Z 1)
    / of_Z (organ_weight Liver truth + organ_weight Bladder truth
            + organ_weight Lungs truth + organ_weight Kidneys truth
            + organ_weight Bones truth + 1).
Proof.
  unfold weighted_dice, organs. cbn [map]. rewrite np_sum_5.
  f_equal. f_equal. unfold Zsum. cbn [fold_right]. lia.
Qed.

(** What [dice_total] returns and how it leaves the accumulators. *)
Lemma dice_total_eq (pred : grid Z) (truth : ground_truth) (g : accum) :
  dice_total pred truth g
  = ((weighted_dice pred truth,
      organ_dice Liver pred truth * of_Z (organ_weight Liver truth),
      organ_dice Bladder pred truth * of_Z (organ_weight Bladder truth),
      organ_dice Lungs pred truth * of_Z (organ_weight Lungs truth),
      organ_dice Kidneys pred truth * of_Z (organ_weight Kidneys truth),
      organ_dice Bones pred truth * of_Z (organ_weight Bones truth)),
     {| n_liver := n_liver g + organ_weight Liver truth;
        n_bladder := n_bladder g + organ_weight Bladder truth;
        n_lungs := n_lungs g + organ_weight Lungs truth;
        n_kidneys := n_kidneys g + organ_weight Kidneys truth;
        n_bones := n_bones g + organ_weight Bones truth |}).
Proof.
  unfold dice_total. rewrite !plane_sum_weight, weighted_dice_unfold.
  reflexivity.
Qed.

Lemma organ_dice_Fin (c : organ_class) (mask : grid Z) (truth : ground_truth) :
  exists r, organ_dice c mask truth = Fin r.
Proof. apply dice_single_Fin. Qed.

Lemma no_organ_row (c : organ_class) (row : list (px6 bool)) :
  c <> Background ->
  forallb
    (fun px : px6 bool =>
       negb (c_liver px || c_bladder px || c_lungs px || c_kidneys px
             || c_bones px)) row = true ->
  count_row (map (channel c) row) = 0%Z.
Proof.
  intros Hc. induction row as [|px row IH]; intros H; [reflexivity|].
  cbn [forallb] in H. apply andb_true_iff in H. destruct H as [Hpx Hrow].
  rewrite map_cons, count_row_cons, (IH Hrow).
  apply negb_true_iff in Hpx. rewrite !orb_false_iff in Hpx.
  destruct Hpx as [[[[H1 H2] H3] H4] H5].
  destruct c; cbn [channel]; try contradiction;
    rewrite ?H1, ?H2, ?H3, ?H4, ?H5; reflexivity.
Qed.

(** Without organ pixels every organ weight is zero. *)
Lemma no_organ_weight (c : organ_class) (truth : ground_truth) :
  c <> Background -> no_organ_pixels truth = true -> organ_weight c truth = 0%Z.
Proof.
  intros Hc. unfold organ_weight, plane, grid_map, no_organ_pixels.
  induction truth as [|row truth IH]; intros H; [reflexivity|].
  cbn [forallb] in H. apply andb_true_iff in H. destruct H as [Hrow Hrest].
  rewrite map_cons, card_cons, (IH Hrest), (@no_organ_row c row Hc Hrow).
  reflexivity.
Qed.

Lemma weighted_dice_no_organ (mask : grid Z) (truth : ground_truth) :
  no_organ_pixels truth = true -> weighted_dice mask truth = Fin 1.
Proof.
  intros H. rewrite weighted_dice_unfold.
  rewrite !(no_organ_weight) by (exact H || discriminate).
  destruct (organ_dice_Fin Liver mask truth) as [r1 ->].
  destruct (organ_dice_Fin Bladder mask truth) as [r2 ->].
  destruct (organ_dice_Fin Lungs mask truth) as [r3 ->].
  destruct (organ_dice_Fin Kidneys mask truth) as [r4 ->].
  destruct (organ_dice_Fin Bones mask truth) as [r5 ->].
  unfold of_Z. cbn [fmul fadd]. rewrite fdiv_Fin.
  - f_equal. cbn [Z.add]. field.
  - cbn [Z.add]. lra.
Qed.

End DiceTotal.

(** ** The loop of evaluate_results *)

Section Loop.

Local Open Scope npfloat_scope.

Lemma loop_body_eq (pred : prediction) (truth : ground_truth) (t : totals)
  (g : accum) :
  loop_body pred truth t g
  = ({| dice_liver_total :=
          dice_liver_total t
          ++ [organ_dice Liver (prepare_prediction pred) truth
              * of_Z (organ_weight Liver truth)];
        dice_bladder_total :=
          dice_bladder_total t
          ++ [organ_dice Bladder (prepare_prediction pred) truth
              * of_Z (organ_weight Bladder truth)];
        dice_lungs_total :=
          dice_lungs_total t
          ++ [organ_dice Lungs (prepare_prediction pred) truth
              * of_Z (organ_weight Lungs truth)];
        dice_kidneys_total :=
          dice_kidneys_total t
          ++ [organ_dice Kidneys (prepare_prediction pred) truth
              * of_Z (organ_weight Kidneys truth)];
        dice_bones_total :=
          dice_bones_total t
          ++ [organ_dice Bones (prepare_prediction pred) truth
              * of_Z (organ_weight Bones truth)];
        dice := dice t + weighted_dice (prepare_prediction pred) truth;
        dices := dices t ++ [weighted_dice (prepare_prediction pred) truth] |},
     {| n_liver := n_liver g + organ_weight Liver truth;
        n_bladder := n_bladder g + organ_weight Bladder truth;
        n_lungs := n_lungs g + organ_weight Lungs truth;
        n_kidneys := n_kidneys g + organ_weight Kidneys truth;
        n_bones := n_bones g + organ_weight Bones truth |}).
Proof. unfold loop_body. rewrite dice_total_eq. reflexivity. Qed.

Lemma step_total_of (c : organ_class) (st : totals * accum) (s : sample) :
  c <> Background ->
  total_of c (fst (step st s)) = total_of c (fst st) ++ [contribution c s].
Proof.
  intros Hc. unfold step, contribution. rewrite loop_body_eq.
  rewrite (fmul_comm (of_Z _)).
  destruct c; try contradiction; reflexivity.
Qed.

Lemma step_dices (st : totals * accum) (s : sample) :
  dices (fst (step st s))
  = dices (fst st) ++ [weighted_dice (prepare_prediction (fst s)) (snd s)].
Proof. unfold step. rewrite loop_body_eq. reflexivity. Qed.

Lemma step_n_of (c : organ_class) (st : totals * accum) (s : sample) :
  c <> Background ->
  n_of c (snd (step st s)) = (n_of c (snd st) + organ_weight c (snd s))%Z.
Proof.
  intros Hc. unfold step. rewrite loop_body_eq.
  destruct c; try contradiction; reflexivity.
Qed.

Lemma run_cons (s : sample) (samples : list sample) (st : totals * accum) :
  run (s :: samples) st = run samples (step st s).
Proof. reflexivity. Qed.

Lemma run_total_of (c : organ_class) (samples : list sample)
  (st : totals * accum) :
  c <> Background ->
  total_of c (fst (run samples st))
  = total_of c (fst st) ++ map (contribution c) samples.
Proof.
  intros Hc. revert st. induction samples as [|s samples IH]; intros st.
  - cbn [run fold_left map]. rewrite app_nil_r. reflexivity.
  - rewrite run_cons, IH, (step_total_of st s Hc), <- app_assoc. reflexivity.
Qed.

Lemma run_dices (samples : list sample) (st : totals * accum) :
  dices (fst (run samples st))
  = dices (fst st)
    ++ map (fun s => weighted_dice (prepare_prediction (fst s)) (snd s)) samples.
Proof.
  revert st. induction samples as [|s samples IH]; intros st.
  - cbn [run fold_left map]. rewrite app_nil_r. reflexivity.
  - rewrite run_cons, IH, step_dices, <- app_assoc. reflexivity.
Qed.

Lemma run_n_of (c : organ_class) (samples : list sample)
  (st : totals * accum) :
  c <> Background ->
  n_of c (snd (run samples st))
  = (n_of c (snd st) + organ_weight_sum c samples)%Z.
Proof.
  intros Hc. revert st. induction samples as [|s samples IH]; intros st.
  - cbn [run fold_left]. unfold organ_weight_sum, Zsum. cbn [map fold_right]. lia.
  - rewrite run_cons, IH, (step_n_of st s Hc).
    unfold organ_weight_sum. rewrite map_cons, Zsum_cons.
    apply eq_sym, Z.add_assoc.
Qed.

Lemma skipn_nth_error (A : Type) (l : list A) (i : nat) (x : A) :
  nth_error l i = Some x -> skipn i l = x :: skipn (S i) l.
Proof.
  revert i. induction l as [|y l IH]; intros [|i] H; try discriminate.
  - injection H as ->. reflexivity.
  - cbn [nth_error] in H. cbn [skipn]. rewrite (IH i H). reflexivity.
Qed.

(** When [list_true] is long enough the loop is [run] on the paired lists. *)
Lemma eval_loop_run (rest : list prediction) (list_true : list ground_truth)
  (i : nat) (t : totals) (g : accum) :
  (length rest + i <= length list_true)%nat ->
  eval_loop rest list_true i t g
  = Returned (fst (run (combine rest (skipn i list_true)) (t, g)))
             (snd (run (combine rest (skipn i list_true)) (t, g))).
Proof.
  revert i t g. induction rest as [|pred rest IH]; intros i t g Hlen.
  - reflexivity.
  - cbn [length] in Hlen. cbn [eval_loop].
    destruct (nth_error list_true i) as [truth|] eqn:E.
    + rewrite (skipn_nth_error _ _ E). cbn [combine]. rewrite run_cons.
      unfold step. cbn [fst snd].
      destruct (loop_body pred truth t g) as [t' g'].
      apply IH. lia.
    + apply nth_error_None in E. lia.
Qed.

(** When [list_true] is too short the loop raises [IndexError], after the
    samples in front of the missing index have been processed. *)
Lemma eval_loop_short (rest : list prediction) (list_true : list ground_truth)
  (i : nat) (t : totals) (g : accum) :
  (i <= length list_true < length rest + i)%nat ->
  eval_loop rest list_true i t g
  = Raised IndexError (snd (run (combine rest (skipn i list_true)) (t, g))).
Proof.
  revert i t g. induction rest as [|pred rest IH]; intros i t g Hlen.
  - cbn [length] in Hlen. lia.
  - cbn [length] in Hlen. cbn [eval_loop].
    destruct (nth_error list_true i) as [truth|] eqn:E.
    + assert (i < length list_true)%nat
        by (apply nth_error_Some; rewrite E; discriminate).
      rewrite (skipn_nth_error _ _ E). cbn [combine]. rewrite run_cons.
      unfold step. cbn [fst snd].
      destruct (loop_body pred truth t g) as [t' g'].
      apply IH. lia.
    + apply nth_error_None in E. rewrite skipn_all2 by exact E.
      reflexivity.
Qed.

Lemma combine_firstn_r (A B : Type) (l : list A) (l' : list B) :
  combine l (firstn (length l) l') = combine l l'.
Proof.
  revert l'. induction l as [|x l IH]; intros [|y l']; try reflexivity.
  cbn [length firstn combine]. rewrite IH. reflexivity.
Qed.

End Loop.

(** ** Sums and standard deviations of finite scores *)

Section FiniteScores.

Local Open Scope R_scope.

Lemma Rsum_cons (x : R) (xs : list R) : Rsum (x :: xs) = x + Rsum xs.
Proof. reflexivity. Qed.

Lemma np_sum_map_to_R (A : Type) (f : A -> npfloat) (l : list A) :
  (forall x, exists r, f x = Fin r) ->
  np_sum (map f l) = Fin (Rsum (map (fun x => to_R (f x)) l)).
Proof.
  intros Hf. induction l as [|a l IH].
  - reflexivity.
  - rewrite !map_cons, np_sum_cons, IH, Rsum_cons.
    destruct (Hf a) as [r ->]. reflexivity.
Qed.

Lemma Rsum_5 (A : Type) (f1 f2 f3 f4 f5 : A -> R) (l : list A) :
  Rsum (map (fun x => f1 x + f2 x + f3 x + f4 x + f5 x) l)
  = Rsum (map f1 l) + Rsum (map f2 l) + Rsum (map f3 l) + Rsum (map f4 l)
    + Rsum (map f5 l).
Proof.
  induction l as [|a l IH].
  - cbn [map Rsum fold_right]. ring.
  - rewrite !map_cons, !Rsum_cons, IH. ring.
Qed.

Lemma Rsum_squares_nonneg (mu : R) (xs : list R) :
  0 <= Rsum (map (fun x => (x - mu) * (x - mu)) xs).
Proof.
  induction xs as [|x xs IH].
  - cbn [map Rsum fold_right]. lra.
  - rewrite map_cons, Rsum_cons. pose proof (Rle_0_sqr (x - mu)) as H.
    unfold Rsqr in H. lra.
Qed.

Lemma INR_length_pos (A : Type) (xs : list A) : xs <> [] -> 0 < INR (length xs).
Proof.
  intros H. destruct xs as [|x xs]; [contradiction|].
  apply lt_0_INR. cbn [length]. lia.
Qed.

Lemma np_mean_Fin (rs : list R) :
  rs <> [] -> np_mean (map Fin rs) = Fin (Rsum rs / INR (length rs)).
Proof.
  intros H. unfold np_mean, of_nat. rewrite np_sum_Fin, length_map.
  apply fdiv_Fin. pose proof (INR_length_pos H). lra.
Qed.

(** [np.std] of finite scores is the textbook population standard deviation. *)
Lemma np_std_Fin (rs : list R) :
  rs <> [] -> np_std (map Fin rs) = Fin (pop_std rs).
Proof.
  intros H. unfold np_std, pop_std. rewrite (np_mean_Fin H), map_map.
  set (mu := Rsum rs / INR (length rs)).
  rewrite (map_ext _ (fun x => Fin ((x - mu) * (x - mu)))).
  - rewrite <- (map_map (fun x => (x - mu) * (x - mu)) Fin).
    rewrite np_mean_Fin, length_map.
    + apply fsqrt_Fin. pose proof (Rsum_squares_nonneg mu rs).
      pose proof (INR_length_pos H).
      apply Rmult_le_pos; [assumption|]. left. apply Rinv_0_lt_compat.
      assumption.
    + destruct rs; [contradiction | discriminate].
  - intros x. cbn [fsub fneg fadd fabs fmul]. f_equal.
    rewrite <- Rabs_mult. apply Rabs_right. apply Rle_ge.
    apply (Rle_0_sqr (x + - mu)).
Qed.

Lemma np_std_map_to_R (A : Type) (f : A -> npfloat) (l : list A) :
  (forall x, exists r, f x = Fin r) ->
  l <> [] ->
  np_std (map f l) = Fin (pop_std (map (fun x => to_R (f x)) l)).
Proof.
  intros Hf Hl.
  rewrite (map_ext f (fun x => Fin (to_R (f x)))).
  - rewrite <- (map_map (fun x => to_R (f x)) Fin). apply np_std_Fin.
    destruct l; [contradiction | discriminate].
  - intros x. destruct (Hf x) as [r ->]. reflexivity.
Qed.

Lemma contribution_Fin (c : organ_class) (s : sample) :
  exists r, contribution c s = Fin r.
Proof.
  unfold contribution.
  destruct (organ_dice_Fin c (prepare_prediction (fst s)) (snd s)) as [r ->].
  eexists. reflexivity.
Qed.

Lemma sample_sum_Fin (s : sample) :
  np_sum (map (fun c => contribution c s) organs)
  = Fin (to_R (contribution Liver s) + to_R (contribution Bladder s)
         + to_R (contribution Lungs s) + to_R (contribution Kidneys s)
         + to_R (contribution Bones s)).
Proof.
  unfold organs. cbn [map]. rewrite np_sum_5.
  destruct (contribution_Fin Liver s) as [r1 ->].
  destruct (contribution_Fin Bladder s) as [r2 ->].
  destruct (contribution_Fin Lungs s) as [r3 ->].
  destruct (contribution_Fin Kidneys s) as [r4 ->].
  destruct (contribution_Fin Bones s) as [r5 ->].
  reflexivity.
Qed.

(** Summing per organ and then over organs, or per sample and then over
    samples, gives the same total. *)
Lemma organ_sums_swap (samples : list sample) :
  (np_sum (map (contribution Liver) samples)
   + np_sum (map (contribution Bladder) samples)
   + np_sum (map (contribution Lungs) samples)
   + np_sum (map (contribution Kidneys) samples)
   + np_sum (map (contribution Bones) samples))%npf
  = dataset_weighted_sum samples.
Proof.
  unfold dataset_weighted_sum.
  rewrite !(np_sum_map_to_R _ _ (contribution_Fin _)).
  rewrite (np_sum_map_to_R
             (fun s => np_sum (map (fun c => contribution c s) organs))).
  - cbn [fadd]. f_equal.
    rewrite (map_ext
               (fun s => to_R (np_sum (map (fun c => contribution c s) organs)))
               (fun s => to_R (contribution Liver s)
                         + to_R (contribution Bladder s)
                         + to_R (contribution Lungs s)
                         + to_R (contribution Kidneys s)
                         + to_R (contribution Bones s))).
    + rewrite Rsum_5. reflexivity.
    + intros s. rewrite sample_sum_Fin. reflexivity.
  - intros s. rewrite sample_sum_Fin. eexists. reflexivity.
Qed.

Lemma dataset_weight_split (samples : list sample) :
  dataset_weight samples
  = (organ_weight_sum Liver samples + organ_weight_sum Bladder samples
     + organ_weight_sum Lungs samples + organ_weight_sum Kidneys samples
     + organ_weight_sum Bones samples)%Z.
Proof.
  unfold dataset_weight, organ_weight_sum.
  induction samples as [|s samples IH].
  - reflexivity.
  - cbn [map]. rewrite !Zsum_cons, IH. unfold organs, Zsum at 1.
    cbn [map fold_right]. ring.
Qed.

End FiniteScores.

(** ** evaluate_results *)

Section EvaluateResults.

Local Open Scope npfloat_scope.

(** With at least as many ground truths as predictions the call returns:
    it prints the report of the totals of [run]. *)
Lemma evaluate_results_ok (list_pred : list prediction)
  (list_true : list ground_truth) (g : accum) :
  (length list_pred <= length list_true)%nat ->
  evaluate_results list_pred list_true g
  = Returned
      (print_report (fst (run (combine list_pred list_true) (totals0, g)))
                    (snd (run (combine list_pred list_true) (totals0, g))))
      (snd (run (combine list_pred list_true) (totals0, g))).
Proof.
  intros Hlen. unfold evaluate_results.
  rewrite eval_loop_run by lia. reflexivity.
Qed.

Lemma run_total_of0 (c : organ_class) (samples : list sample) (g : accum) :
  c <> Background ->
  total_of c (fst (run samples (totals0, g))) = map (contribution c) samples.
Proof. intros Hc. rewrite (run_total_of samples (totals0, g) Hc). destruct c; try contradiction; reflexivity. Qed.

End EvaluateResults.

(** ** Claims on [dice_total] *)

Section DiceTotalClaims.

Local Open Scope npfloat_scope.

(** C1.  For every class mask and ground truth, the first component
    [dice_total] returns is the per-sample weighted Dice: the sum over the
    five non-background classes of organ pixel weight times single-class
    Dice, plus 1, divided by the sum of the five organ pixel weights plus 1,
    the organ pixel weight being the ground-truth pixel count of the class.
    The other five components are the products Dice times weight, and every
    organ's pixel weight is added to its process-wide accumulator. *)
Theorem dice_total_weighted (pred : grid Z) (truth : ground_truth) (g : accum) :
  dice_total pred truth g
  = ((((np_sum
          (map (fun c => of_Z (organ_weight c truth) * organ_dice c pred truth)
               organs)
        + of_Z 1)
       / of_Z (Zsum (map (fun c => organ_weight c truth) organs) + 1)),
      organ_dice Liver pred truth * of_Z (organ_weight Liver truth),
      organ_dice Bladder pred truth * of_Z (organ_weight Bladder truth),
      organ_dice Lungs pred truth * of_Z (organ_weight Lungs truth),
      organ_dice Kidneys pred truth * of_Z (organ_weight Kidneys truth),
      organ_dice Bones pred truth * of_Z (organ_weight Bones truth)),
     {| n_liver := n_liver g + organ_weight Liver truth;
        n_bladder := n_bladder g + organ_weight Bladder truth;
        n_lungs := n_lungs g + organ_weight Lungs truth;
        n_kidneys := n_kidneys g + organ_weight Kidneys truth;
        n_bones := n_bones g + organ_weight Bones truth |}).
Proof. exact (dice_total_eq pred truth g). Qed.



End DiceTotalClaims.

(** ** Claims on [evaluate_results] *)

Section EvaluateResultsClaims.

Local Open Scope npfloat_scope.

Lemma organs_mean_eq (t : totals) (g : accum) :
  organs_mean (print_report t g)
  = (np_sum (total_of Liver t) + np_sum (total_of Bladder t)
     + np_sum (total_of Lungs t) + np_sum (total_of Kidneys t)
     + np_sum (total_of Bones t))
    / of_Z (n_of Liver g + n_of Bladder g + n_of Lungs g + n_of Kidneys g
            + n_of Bones g)
    * of_Z 100.
Proof. reflexivity. Qed.

Lemma organs_std_eq (t : totals) (g : accum) :
  organs_std (print_report t g)
  = (np_std (total_of Liver t) + np_std (total_of Bladder t)
     + np_std (total_of Lungs t) + np_std (total_of Kidneys t)
     + np_std (total_of Bones t))
    / of_Z (n_of Liver g + n_of Bladder g + n_of Lungs g + n_of Kidneys g
            + n_of Bones g)
    * of_Z 100.
Proof. reflexivity. Qed.

Lemma mean_of_eq (c : organ_class) (t : totals) (g : accum) :
  c <> Background ->
  mean_of c (print_report t g)
  = np_sum (total_of c t) / of_Z (n_of c g) * of_Z 100.
Proof. intros Hc. destruct c; try contradiction; reflexivity. Qed.

Lemma std_of_eq (c : organ_class) (t : totals) (g : accum) :
  c <> Background ->
  std_of c (print_report t g)
  = np_std (total_of c t) / of_Z (n_of c g) * of_Z 100.
Proof. intros Hc. destruct c; try contradiction; reflexivity. Qed.

(** C3.  In a run whose accumulators start at zero, the dataset-wide weighted
    mean organ Dice that [evaluate_results] reports is (as a percentage) the
    sum over all samples and all five organs of organ pixel weight times
    organ Dice, divided by the sum of all accumulated organ pixel weights. *)
Theorem weighted_mean_organs (list_pred : list prediction)
  (list_true : list ground_truth) :
  (length list_pred <= length list_true)%nat ->
  exists rep g',
    evaluate_results list_pred list_true accum0 = Returned rep g'
    /\ organs_mean rep
       = dataset_weighted_sum (combine list_pred list_true)
         / of_Z (dataset_weight (combine list_pred list_true))
         * of_Z 100.
Proof.
  intros Hlen. rewrite (@evaluate_results_ok list_pred list_true accum0 Hlen).
  eexists. eexists. split; [reflexivity|].
  rewrite organs_mean_eq.
  rewrite !run_total_of0 by discriminate.
  rewrite !run_n_of by discriminate.
  rewrite organ_sums_swap, dataset_weight_split.
  cbn [snd n_of accum0 n_liver n_bladder n_lungs n_kidneys n_bones].
  rewrite !Z.add_0_l. reflexivity.
Qed.

Lemma weighted_mean_organs_witness :
  exists rep g',
    evaluate_results [liver_pred; background_pred]
                     [liver_truth; background_truth] accum0
    = Returned rep g'
    /\ organs_mean rep
       = dataset_weighted_sum
           (combine [liver_pred; background_pred]
                    [liver_truth; background_truth])
         / of_Z (dataset_weight
                   (combine [liver_pred; background_pred]
                            [liver_truth; background_truth]))
         * of_Z 100.
Proof.
  apply (@weighted_mean_organs [liver_pred; background_pred]
                               [liver_truth; background_truth]).
  cbn [length]. lia.
Defined.

(** C4.  The aggregate weighted "standard deviation" that [evaluate_results]
    reports is (as a percentage) the sum over the five organs of the
    standard deviation of that organ's per-sample weighted contributions,
    divided by the sum of the five accumulated organ pixel weights: what
    each accumulator held before the call plus the ground-truth pixel count
    of the organ over the dataset, which is also what the accumulator holds
    after the call.  On a non-empty dataset each of these standard
    deviations is the population standard deviation of the contributions. *)
Theorem weighted_std_organs (list_pred : list prediction)
  (list_true : list ground_truth) (g : accum) :
  (length list_pred <= length list_true)%nat ->
  exists rep g',
    evaluate_results list_pred list_true g = Returned rep g'
    /\ (forall c, c <> Background ->
          n_of c g'
          = (n_of c g + organ_weight_sum c (combine list_pred list_true))%Z)
    /\ organs_std rep
       = np_sum (map (fun c =>
                        np_std (map (contribution c)
                                    (combine list_pred list_true)))
                     organs)
         / of_Z (Zsum (map (fun c =>
                              (n_of c g
                               + organ_weight_sum c
                                   (combine list_pred list_true))%Z)
                           organs))
         * of_Z 100
    /\ (g = accum0 ->
        organs_std rep
        = np_sum (map (fun c =>
                         np_std (map (contribution c)
                                     (combine list_pred list_true)))
                      organs)
          / of_Z (dataset_weight (combine list_pred list_true))
          * of_Z 100)
    /\ (list_pred <> [] ->
        forall c,
          np_std (map (contribution c) (combine list_pred list_true))
          = Fin (pop_std (map (fun s => to_R (contribution c s))
                              (combine list_pred list_true)))).
Proof.
  intros Hlen. rewrite (@evaluate_results_ok list_pred list_true g Hlen).
  eexists. eexists. split; [reflexivity|].
  assert (Hstd :
    organs_std
      (print_report (fst (run (combine list_pred list_true) (totals0, g)))
                    (snd (run (combine list_pred list_true) (totals0, g))))
    = np_sum (map (fun c =>
                     np_std (map (contribution c)
                                 (combine list_pred list_true)))
                  organs)
      / of_Z (Zsum (map (fun c =>
                           (n_of c g
                            + organ_weight_sum c
                                (combine list_pred list_true))%Z)
                        organs))
      * of_Z 100).
  { rewrite organs_std_eq.
    rewrite !run_total_of0 by discriminate.
    rewrite !run_n_of by discriminate.
    unfold organs. cbn [map snd]. rewrite np_sum_5.
    f_equal. f_equal. f_equal. unfold Zsum. cbn [fold_right]. ring. }
  split; [|split; [exact Hstd | split]].
  - intros c Hc. rewrite run_n_of by exact Hc. reflexivity.
  - intros ->. rewrite Hstd. f_equal. f_equal. f_equal.
    rewrite dataset_weight_split. unfold organs, Zsum.
    cbn [map fold_right n_of accum0 n_liver n_bladder n_lungs n_kidneys
         n_bones].
    ring.
  - intros Hne c. apply np_std_map_to_R.
    + apply contribution_Fin.
    + destruct list_pred as [|p ps]; [contradiction|].
      destruct list_true as [|t ts]; [cbn [length] in Hlen; lia|].
      discriminate.
Qed.

Lemma weighted_std_organs_witness :
  exists rep g',
    evaluate_results [liver_pred; background_pred]
                     [liver_truth; background_truth] accum0
    = Returned rep g'
    /\ (forall c, c <> Background ->
          n_of c g'
          = (n_of c accum0
             + organ_weight_sum c
                 (combine [liver_pred; background_pred]
                          [liver_truth; background_truth]))%Z)
    /\ organs_std rep
       = np_sum (map (fun c =>
                        np_std (map (contribution c)
                                    (combine [liver_pred; background_pred]
                                             [liver_truth; background_truth])))
                     organs)
         / of_Z (Zsum (map (fun c =>
                              (n_of c accum0
                               + organ_weight_sum c
                                   (combine [liver_pred; background_pred]
                                            [liver_truth; background_truth]))%Z)
                           organs))
         * of_Z 100
    /\ (accum0 = accum0 ->
        organs_std rep
        = np_sum (map (fun c =>
                         np_std (map (contribution c)
                                     (combine [liver_pred; background_pred]
                                              [liver_truth; background_truth])))
                      organs)
          / of_Z (dataset_weight
                    (combine [liver_pred; background_pred]
                             [liver_truth; background_truth]))
          * of_Z 100)
    /\ ([liver_pred; background_pred] <> [] ->
        forall c,
          np_std (map (contribution c)
                      (combine [liver_pred; background_pred]
                               [liver_truth; background_truth]))
          = Fin (pop_std (map (fun s => to_R (contribution c s))
                              (combine [liver_pred; background_pred]
                                       [liver_truth; background_truth])))).
Proof.
  apply (@weighted_std_organs [liver_pred; background_pred]
                              [liver_truth; background_truth] accum0).
  cbn [length]. lia.
Defined.

End EvaluateResultsClaims.

(** ** Division by zero, list lengths *)

Section EdgeCases.

Local Open Scope npfloat_scope.

Lemma ratio_by_zero_special (x : npfloat) :
  is_special (x / of_Z 0 * of_Z 100).
Proof. apply fmul_special_l, fdiv_by_zero_special. Qed.

(** C6.  [evaluate_results] never raises on a division by zero.  Whenever an
    organ's accumulated ground-truth pixel weight is zero at the end of the
    loop, both numbers reported for that organ are [nan] or [inf]; when the
    five accumulators sum to zero, so are the aggregate weighted mean and
    its "standard deviation". *)
Theorem absent_organ_visible (list_pred : list prediction)
  (list_true : list ground_truth) (g : accum) :
  (length list_pred <= length list_true)%nat ->
  exists rep g',
    evaluate_results list_pred list_true g = Returned rep g'
    /\ (forall c, c <> Background ->
          n_of c g'
          = (n_of c g + organ_weight_sum c (combine list_pred list_true))%Z)
    /\ (forall c, c <> Background -> n_of c g' = 0%Z ->
          is_special (mean_of c rep) /\ is_special (std_of c rep))
    /\ ((n_liver g' + n_bladder g' + n_lungs g' + n_kidneys g' + n_bones g')%Z
        = 0%Z ->
        is_special (organs_mean rep) /\ is_special (organs_std rep)).
Proof.
  intros Hlen. rewrite (@evaluate_results_ok list_pred list_true g Hlen).
  eexists. eexists. split; [reflexivity|]. split; [|split].
  - intros c Hc. rewrite run_n_of by exact Hc. reflexivity.
  - intros c Hc Hz. rewrite (mean_of_eq _ _ Hc), (std_of_eq _ _ Hc), Hz.
    split; apply ratio_by_zero_special.
  - intros Hz. rewrite organs_mean_eq, organs_std_eq.
    cbn [n_of]. rewrite Hz. split; apply ratio_by_zero_special.
Qed.

Lemma absent_organ_visible_witness :
  exists rep g',
    evaluate_results [background_pred] [background_truth] accum0
    = Returned rep g'
    /\ (forall c, c <> Background ->
          n_of c g'
          = (n_of c accum0
             + organ_weight_sum c (combine [background_pred] [background_truth]))%Z)
    /\ (forall c, c <> Background -> n_of c g' = 0%Z ->
          is_special (mean_of c rep) /\ is_special (std_of c rep))
    /\ ((n_liver g' + n_bladder g' + n_lungs g' + n_kidneys g' + n_bones g')%Z
        = 0%Z ->
        is_special (organs_mean rep) /\ is_special (organs_std rep)).
Proof.
  apply (@absent_organ_visible [background_pred] [background_truth] accum0).
  cbn [length]. lia.
Defined.

(** C10.  [evaluate_results] reads only the first [len(list_pred)] entries of
    [list_true]: with strictly more ground truths than predictions the call
    returns, and it returns what it returns on the ground truths cut to the
    length of the predictions. *)
Theorem extra_truth_ignored (list_pred : list prediction)
  (list_true : list ground_truth) (g : accum) :
  (length list_pred < length list_true)%nat ->
  evaluate_results list_pred list_true g
  = evaluate_results list_pred (firstn (length list_pred) list_true) g
  /\ exists rep g', evaluate_results list_pred list_true g = Returned rep g'.
Proof.
  intros Hlen.
  rewrite (@evaluate_results_ok list_pred list_true g) by lia.
  rewrite (@evaluate_results_ok list_pred (firstn (length list_pred) list_true) g)
    by (rewrite length_firstn; lia).
  rewrite combine_firstn_r. split; [reflexivity|].
  eexists. eexists. reflexivity.
Qed.

Lemma extra_truth_ignored_witness :
  evaluate_results [liver_pred] [liver_truth; background_truth] accum0
  = evaluate_results [liver_pred]
      (firstn (length [liver_pred]) [liver_truth; background_truth]) accum0
  /\ exists rep g',
      evaluate_results [liver_pred] [liver_truth; background_truth] accum0
      = Returned rep g'.
Proof.
  apply (@extra_truth_ignored [liver_pred] [liver_truth; background_truth] accum0).
  cbn [length]. lia.
Defined.

(** C5 as stated fails on [evaluate_results]: with no prediction and one
    ground truth (lengths 0 and 1) the call does not raise, and with two
    predictions and one ground truth it raises only after the first sample
    has been added to the liver accumulator. *)
Lemma length_mismatch_unchecked :
  length (@nil prediction) <> length [liver_truth]
  /\ (forall e g', evaluate_results [] [liver_truth] accum0 <> Raised e g')
  /\ length [liver_pred; liver_pred] <> length [liver_truth]
  /\ exists g',
      evaluate_results [liver_pred; liver_pred] [liver_truth] accum0
      = Raised IndexError g'
      /\ n_liver accum0 = 0%Z
      /\ n_liver g' = 4%Z.
Proof.
  split; [discriminate|]. split; [intros e g' H; discriminate H|].
  split; [discriminate|].
  eexists. split; [|split].
  - unfold evaluate_results. rewrite eval_loop_short by (cbn [length]; lia).
    reflexivity.
  - reflexivity.
  - change (n_liver ?x) with (n_of Liver x).
    rewrite run_n_of by discriminate. reflexivity.
Qed.

End EdgeCases.

(** ** prepare_prediction *)

Section Argmax.

Lemma nth_error_snoc (A : Type) (pre : list A) (x : A) (j : nat) (w : A) :
  nth_error (pre ++ [x]) j = Some w ->
  ((j < length pre)%nat /\ nth_error pre j = Some w)
  \/ (j = length pre /\ w = x).
Proof.
  intros H. destruct (Nat.lt_ge_cases j (length pre)) as [Hlt|Hge].
  - left. split; [exact Hlt|]. rewrite nth_error_app1 in H by exact Hlt.
    exact H.
  - right. rewrite nth_error_app2 in H by exact Hge.
    destruct (j - length pre)%nat as [|k] eqn:E.
    + cbn in H. injection H as <-. split; [lia | reflexivity].
    + cbn in H. destruct k; discriminate H.
Qed.

(** The scan keeps the lowest index of the greatest value seen so far. *)
Lemma argmax_from_spec (xs pre : list Q) (best : Q) (best_i : nat) :
  nth_error pre best_i = Some best ->
  (forall j w, nth_error pre j = Some w -> (w <= best)%Q) ->
  (forall j w, (j < best_i)%nat -> nth_error pre j = Some w -> (w < best)%Q) ->
  first_max_at (pre ++ xs) (argmax_from best best_i (length pre) xs).
Proof.
  revert pre best best_i.
  induction xs as [|x rest IH]; intros pre best best_i Hat Hmax Hfirst.
  - rewrite app_nil_r. cbn [argmax_from]. exists best. split; [exact Hat|].
    split; assumption.
  - assert (Hbi : (best_i < length pre)%nat)
      by (apply nth_error_Some; rewrite Hat; discriminate).
    assert (Hkeep : (x <= best)%Q ->
                    first_max_at (pre ++ x :: rest)
                      (argmax_from best best_i (S (length pre)) rest)).
    { intros Hle.
      replace (pre ++ x :: rest) with ((pre ++ [x]) ++ rest)
        by (rewrite <- app_assoc; reflexivity).
      replace (S (length pre)) with (length (pre ++ [x]))
        by (rewrite length_app; cbn [length]; lia).
      apply IH.
      - rewrite nth_error_app1 by exact Hbi. exact Hat.
      - intros j w Hj. apply nth_error_snoc in Hj.
        destruct Hj as [[_ Hj]|[_ ->]]; [exact (Hmax j w Hj) | exact Hle].
      - intros j w Hlt Hj. apply nth_error_snoc in Hj.
        destruct Hj as [[_ Hj]|[Hj _]]; [exact (Hfirst j w Hlt Hj) | lia]. }
    cbn [argmax_from]. destruct (best ?= x)%Q eqn:E.
    + apply Hkeep. apply Qeq_alt in E. rewrite E. apply Qle_refl.
    + apply Qlt_alt in E.
      replace (pre ++ x :: rest) with ((pre ++ [x]) ++ rest)
        by (rewrite <- app_assoc; reflexivity).
      replace (S (length pre)) with (length (pre ++ [x]))
        by (rewrite length_app; cbn [length]; lia).
      apply IH.
      * rewrite nth_error_app2 by lia. rewrite Nat.sub_diag. reflexivity.
      * intros j w Hj. apply nth_error_snoc in Hj.
        destruct Hj as [[_ Hj]|[_ ->]]; [|apply Qle_refl].
        apply Qlt_le_weak. apply Qle_lt_trans with best; [|exact E].
        exact (Hmax j w Hj).
      * intros j w Hlt Hj. apply nth_error_snoc in Hj.
        destruct Hj as [[_ Hj]|[Hj _]]; [|lia].
        apply Qle_lt_trans with best; [|exact E]. exact (Hmax j w Hj).
    + apply Hkeep. apply Qgt_alt in E. apply Qlt_le_weak. exact E.
Qed.

Lemma argmax_first_max (xs : list Q) :
  xs <> [] -> first_max_at xs (argmax xs).
Proof.
  intros H. destruct xs as [|x rest]; [contradiction|].
  cbn [argmax]. apply (@argmax_from_spec rest [x] x 0%nat).
  - reflexivity.
  - intros [|[|j]] w Hj; cbn in Hj; try discriminate Hj.
    injection Hj as <-. apply Qle_refl.
  - intros j w Hlt. lia.
Qed.

Lemma grid_get_map (A B : Type) (f : A -> B) (g : grid A) (i j : nat) :
  grid_get (grid_map f g) i j = option_map f (grid_get g i j).
Proof.
  unfold grid_get, grid_map. rewrite nth_error_map.
  destruct (nth_error g i) as [row|]; cbn [option_map]; [|reflexivity].
  apply nth_error_map.
Qed.

Lemma same_shape_map (A B : Type) (f : A -> B) (g : grid A) :
  same_shape g (grid_map f g).
Proof.
  induction g as [|row g IH]; constructor.
  - rewrite length_map. reflexivity.
  - exact IH.
Qed.

(** C7.  [prepare_prediction] keeps the (H, W) shape of an (H, W, 6)
    prediction and puts at every pixel the index of the maximum of the six
    channel values, the lowest such index when several channels are equal
    and maximal; the index is one of the classes 0..5, within the range of
    an 8-bit unsigned integer. *)
Theorem prepare_prediction_argmax (pred : prediction) :
  same_shape pred (prepare_prediction pred)
  /\ forall (i j : nat) (px : px6 Q),
      grid_get pred i j = Some px ->
      exists c : nat,
        grid_get (prepare_prediction pred) i j = Some (Z.of_nat c)
        /\ (c <= 5)%nat
        /\ (0 <= Z.of_nat c < 256)%Z
        /\ first_max_at (channels px) c.
Proof.
  split.
  - unfold prepare_prediction, grid_map. rewrite map_map.
    induction pred as [|row pred IH]; constructor.
    + rewrite !length_map. reflexivity.
    + exact IH.
  - intros i j px Hget.
    assert (Hmax : first_max_at (channels px) (argmax (channels px)))
      by (apply argmax_first_max; discriminate).
    assert (Hc : (argmax (channels px) <= 5)%nat).
    { destruct Hmax as [v [Hv _]].
      assert (argmax (channels px) < length (channels px))%nat
        by (apply nth_error_Some; rewrite Hv; discriminate).
      cbn [channels length] in H. lia. }
    exists (argmax (channels px)).
    split; [|split; [exact Hc | split; [lia | exact Hmax]]].
    unfold prepare_prediction. rewrite !grid_get_map, Hget.
    cbn [option_map]. unfold astype_uint8. rewrite Z.mod_small by lia.
    reflexivity.
Qed.

(** A pixel whose liver and lungs channels are equal and maximal decodes to
    liver, the lower index. *)
Lemma prepare_prediction_argmax_witness :
  grid_get [[Px6 (1#5) (2#5) 0 (2#5) 0 0]]%Q 0 0
  = Some (Px6 (1#5) (2#5) 0 (2#5) 0 0)%Q
  /\ grid_get (prepare_prediction [[Px6 (1#5) (2#5) 0 (2#5) 0 0]]%Q) 0 0
     = Some 1%Z
  /\ exists c : nat,
      grid_get (prepare_prediction [[Px6 (1#5) (2#5) 0 (2#5) 0 0]]%Q) 0 0
      = Some (Z.of_nat c)
      /\ (c <= 5)%nat
      /\ (0 <= Z.of_nat c < 256)%Z
      /\ first_max_at (channels (Px6 (1#5) (2#5) 0 (2#5) 0 0)%Q) c.
Proof.
  split; [reflexivity|]. split; [reflexivity|].
  apply (proj2 (prepare_prediction_argmax [[Px6 (1#5) (2#5) 0 (2#5) 0 0]]%Q)
               0%nat 0%nat).
  reflexivity.
Defined.

End Argmax.

(** ** The end-to-end scenario *)

Section Scenario.

Local Open Scope R_scope.

Lemma dice_single_eval (pred truth : grid bool) (a b : Z) :
  (2 * grid_sum (grid_map2 (fun p t => Z.b2z p * Z.b2z t) pred truth) + 1 = a)%Z ->
  (grid_sum (grid_map2 (fun p t => Z.b2z p + Z.b2z t) pred truth) + 1 = b)%Z ->
  dice_single (bool_array pred) (number_array truth) = Fin (IZR a / IZR b).
Proof.
  intros Ha Hb. unfold dice_single, of_Z, bool_array, number_array.
  cbn [dtype_of cells np_mul np_add]. rewrite Ha, Hb.
  apply fdiv_Fin. apply not_0_IZR.
  pose proof (grid_add_sum_nonneg pred truth). lia.
Qed.

Lemma pop_std_4_0 : pop_std [4; 0] = 2.
Proof.
  unfold pop_std. cbn [length map Rsum fold_right].
  replace (INR 2) with 2 by (cbn; lra).
  match goal with
  | |- sqrt ?a = _ => replace a with (2 * 2) by field
  end.
  apply sqrt_square. lra.
Qed.

Lemma scenario_liver_first :
  contribution Liver (liver_pred, liver_truth) = Fin 4.
Proof.
  unfold contribution, organ_dice. cbn [fst snd].
  rewrite (@dice_single_eval _ _ 9 9) by reflexivity.
  change (organ_weight Liver liver_truth) with 4%Z.
  unfold of_Z. cbn [fmul]. f_equal. field.
Qed.

Lemma scenario_liver_second :
  contribution Liver (background_pred, background_truth) = Fin 0.
Proof.
  unfold contribution, organ_dice. cbn [fst snd].
  rewrite (@dice_single_eval _ _ 1 1) by reflexivity.
  change (organ_weight Liver background_truth) with 0%Z.
  unfold of_Z. cbn [fmul]. f_equal. field.
Qed.

Lemma scenario_first_dice :
  weighted_dice (prepare_prediction liver_pred) liver_truth = Fin 1.
Proof.
  rewrite weighted_dice_unfold. unfold organ_dice.
  rewrite (@dice_single_eval (mask_eq _ (class_index Liver)) _ 9 9) by reflexivity.
  rewrite (@dice_single_eval (mask_eq _ (class_index Bladder)) _ 1 1) by reflexivity.
  rewrite (@dice_single_eval (mask_eq _ (class_index Lungs)) _ 1 1) by reflexivity.
  rewrite (@dice_single_eval (mask_eq _ (class_index Kidneys)) _ 1 1) by reflexivity.
  rewrite (@dice_single_eval (mask_eq _ (class_index Bones)) _ 1 1) by reflexivity.
  change (organ_weight Liver liver_truth) with 4%Z.
  change (organ_weight Bladder liver_truth) with 0%Z.
  change (organ_weight Lungs liver_truth) with 0%Z.
  change (organ_weight Kidneys liver_truth) with 0%Z.
  change (organ_weight Bones liver_truth) with 0%Z.
  unfold of_Z. cbn [fmul fadd Z.add Pos.add Pos.succ].
  rewrite fdiv_Fin by lra. f_equal. field.
Qed.

(** What the scenario evaluates to: the first sample scores 1, the liver line
    of the report reads 100.00 +- 50.00. *)
Lemma scenario_report :
  exists rep g',
    evaluate_results [liver_pred; background_pred]
                     [liver_truth; background_truth] accum0
    = Returned rep g'
    /\ weighted_score
         (fst (dice_total (prepare_prediction liver_pred) liver_truth accum0))
       = Fin 1
    /\ liver_mean rep = Fin 100
    /\ liver_std rep = Fin 50.
Proof.
  rewrite (@evaluate_results_ok [liver_pred; background_pred]
             [liver_truth; background_truth] accum0)
    by (cbn [length]; lia).
  eexists. eexists. split; [reflexivity|]. split; [|split].
  - rewrite dice_total_eq. cbn [fst weighted_score]. apply scenario_first_dice.
  - change (liver_mean ?r) with (mean_of Liver r).
    rewrite mean_of_eq, run_total_of0, run_n_of by discriminate.
    cbn [combine map]. rewrite scenario_liver_first, scenario_liver_second.
    change [Fin 4; Fin 0] with (map Fin [4; 0]). rewrite np_sum_Fin.
    change (n_of Liver (snd (totals0, accum0))
            + organ_weight_sum Liver [(liver_pred, liver_truth);
                                      (background_pred, background_truth)])%Z
      with 4%Z.
    unfold of_Z. rewrite fdiv_Fin by lra. cbn [fmul Rsum fold_right].
    f_equal. field.
  - change (liver_std ?r) with (std_of Liver r).
    rewrite std_of_eq, run_total_of0, run_n_of by discriminate.
    cbn [combine map]. rewrite scenario_liver_first, scenario_liver_second.
    change [Fin 4; Fin 0] with (map Fin [4; 0]).
    rewrite np_std_Fin by discriminate. rewrite pop_std_4_0.
    change (n_of Liver (snd (totals0, accum0))
            + organ_weight_sum Liver [(liver_pred, liver_truth);
                                      (background_pred, background_truth)])%Z
      with 4%Z.
    unfold of_Z. rewrite fdiv_Fin by lra. cbn [fmul].
    f_equal. field.
Qed.

(** In the same scenario the bladder never appears: its line of the report
    reads nan +- nan. *)
Example scenario_bladder_line :
  exists rep g',
    evaluate_results [liver_pred; background_pred]
                     [liver_truth; background_truth] accum0
    = Returned rep g'
    /\ n_bladder g' = 0%Z
    /\ bladder_mean rep = NaN
    /\ bladder_std rep = NaN.
Proof.
  rewrite (@evaluate_results_ok [liver_pred; background_pred]
             [liver_truth; background_truth] accum0)
    by (cbn [length]; lia).
  assert (E1 : contribution Bladder (liver_pred, liver_truth) = Fin 0).
  { unfold contribution, organ_dice. cbn [fst snd].
    rewrite (@dice_single_eval _ _ 1 1) by reflexivity.
    change (organ_weight Bladder liver_truth) with 0%Z.
    unfold of_Z. cbn [fmul]. f_equal. field. }
  assert (E2 : contribution Bladder (background_pred, background_truth) = Fin 0).
  { unfold contribution, organ_dice. cbn [fst snd].
    rewrite (@dice_single_eval _ _ 1 1) by reflexivity.
    change (organ_weight Bladder background_truth) with 0%Z.
    unfold of_Z. cbn [fmul]. f_equal. field. }
  eexists. eexists. split; [reflexivity|]. split; [|split].
  - change (n_bladder ?x) with (n_of Bladder x).
    rewrite run_n_of by discriminate. reflexivity.
  - change (bladder_mean ?r) with (mean_of Bladder r).
    rewrite mean_of_eq, run_total_of0, run_n_of by discriminate.
    cbn [combine map]. rewrite E1, E2.
    change [Fin 0; Fin 0] with (map Fin [0; 0]). rewrite np_sum_Fin.
    change (n_of Bladder (snd (totals0, accum0))
            + organ_weight_sum Bladder [(liver_pred, liver_truth);
                                        (background_pred, background_truth)])%Z
      with 0%Z.
    unfold of_Z. replace (Rsum [0; 0]) with 0 by (cbn; lra).
    rewrite fdiv_zero_zero. reflexivity.
  - change (bladder_std ?r) with (std_of Bladder r).
    rewrite std_of_eq, run_total_of0, run_n_of by discriminate.
    cbn [combine map]. rewrite E1, E2.
    change [Fin 0; Fin 0] with (map Fin [0; 0]).
    rewrite np_std_Fin by discriminate.
    change (n_of Bladder (snd (totals0, accum0))
            + organ_weight_sum Bladder [(liver_pred, liver_truth);
                                        (background_pred, background_truth)])%Z
      with 0%Z.
    unfold of_Z.
    replace (pop_std [0; 0]) with 0.
    + rewrite fdiv_zero_zero. reflexivity.
    + unfold pop_std. cbn [length map Rsum fold_right].
      replace (INR 2) with 2 by (cbn; lra).
      match goal with
      | |- _ = sqrt ?a => replace a with 0 by field
      end.
      apply eq_sym, sqrt_0.
Qed.

(** C8, as the code has it.  On the dataset of two 2x2 samples, an all-liver
    ground truth predicted perfectly and an all-background ground truth
    predicted perfectly, with accumulators starting at zero, the per-sample
    weighted Dice of the first sample is 1 and the liver line of the report
    carries a mean of 100.00 and a standard deviation of 50.00: the liver
    contributions of the two samples are 4 and 0, their standard deviation
    is 2, and it is divided by the liver weight 4. *)
Theorem scenario_liver_line :
  exists rep g',
    evaluate_results [liver_pred; background_pred]
                     [liver_truth; background_truth] accum0
    = Returned rep g'
    /\ weighted_score
         (fst (dice_total (prepare_prediction liver_pred) liver_truth accum0))
       = Fin 1
    /\ liver_mean rep = Fin 100
    /\ liver_std rep = Fin 50.
Proof. exact scenario_report. Qed.

(** C8 as stated fails: no report of the scenario has a liver standard
    deviation of 0.00. *)
Lemma scenario_liver_std_not_zero :
  ~ (exists rep g',
        evaluate_results [liver_pred; background_pred]
                         [liver_truth; background_truth] accum0
        = Returned rep g'
        /\ weighted_score
             (fst (dice_total (prepare_prediction liver_pred) liver_truth
                              accum0))
           = Fin 1
        /\ liver_mean rep = Fin 100
        /\ liver_std rep = Fin 0).
Proof.
  intros [rep [g' [He [_ [_ Hs]]]]].
  destruct scenario_report as [rep2 [g2 [He2 [_ [_ Hs2]]]]].
  rewrite He in He2. injection He2 as -> ->.
  rewrite Hs in Hs2. injection Hs2 as H. lra.
Qed.

End Scenario.

(** ** Further properties of [dice_single] *)

Section DiceSingleMore.

Local Open Scope R_scope.

Lemma ratio_bounds (a b : R) : 0 < a -> a <= b -> 0 < a / b <= 1.
Proof.
  intros Ha Hab. assert (Hb : 0 < b) by lra. split.
  - apply Rdiv_lt_0_compat; assumption.
  - apply (Rmult_le_reg_r b); [exact Hb|]. unfold Rdiv.
    rewrite Rmult_assoc, Rinv_l by lra. lra.
Qed.

Lemma dice_single_card (pred truth : grid bool) :
  same_shape pred truth ->
  dice_single (bool_array pred) (number_array truth)
  = Fin ((2 * IZR (card (inter pred truth)) + 1)
         / (IZR (card pred) + IZR (card truth) + 1)).
Proof.
  intros Hshape. apply (dice_single_number Hshape). right. reflexivity.
Qed.

Lemma dice_single_self (m : grid bool) :
  dice_single (bool_array m) (number_array m) = Fin 1.
Proof.
  rewrite (dice_single_card (same_shape_refl m)), inter_self. f_equal.
  pose proof (card_nonneg m) as H. apply IZR_le in H. field. lra.
Qed.

Lemma map2_swap (A B C : Type) (f : A -> B -> C) (xs : list A) (ys : list B) :
  map2 f xs ys = map2 (fun b a => f a b) ys xs.
Proof.
  revert ys. induction xs as [|x xs IH]; intros [|y ys]; try reflexivity.
  rewrite !map2_cons, IH. reflexivity.
Qed.

Lemma map2_ext (A B C : Type) (f g : A -> B -> C) (xs : list A) (ys : list B) :
  (forall a b, f a b = g a b) -> map2 f xs ys = map2 g xs ys.
Proof.
  intros H. revert ys. induction xs as [|x xs IH]; intros [|y ys];
    try reflexivity.
  rewrite !map2_cons, IH, H. reflexivity.
Qed.

Lemma grid_map2_comm (A C : Type) (f : A -> A -> C) (p t : grid A) :
  (forall a b, f a b = f b a) -> grid_map2 f p t = grid_map2 f t p.
Proof.
  intros Hf. unfold grid_map2. rewrite map2_swap. apply map2_ext.
  intros r1 r2. rewrite map2_swap. apply map2_ext. intros a b. apply Hf.
Qed.

Lemma inter_comm (p t : grid bool) : inter p t = inter t p.
Proof. apply grid_map2_comm. intros a b. apply andb_comm. Qed.

Lemma inter_le_r (p t : grid bool) : (card (inter p t) <= card t)%Z.
Proof. rewrite inter_comm. apply inter_le_l. Qed.

Lemma same_shape_sym (A B : Type) (p : grid A) (t : grid B) :
  same_shape p t -> same_shape t p.
Proof. intros H. induction H; constructor; auto. Qed.

(** Rows of one length whose intersection is as large as each of them are
    equal. *)
Lemma row_full_overlap (r1 r2 : list bool) :
  length r1 = length r2 ->
  count_row (map2 andb r1 r2) = count_row r1 ->
  count_row (map2 andb r1 r2) = count_row r2 ->
  r1 = r2.
Proof.
  revert r2. induction r1 as [|a r1 IH]; intros [|b r2] Hlen H1 H2;
    try discriminate; [reflexivity|].
  rewrite map2_cons, !count_row_cons in H1, H2.
  assert (Hl : (count_row (map2 andb r1 r2) <= count_row r1)%Z).
  { pose proof (inter_le_l [r1] [r2]) as H. unfold inter, grid_map2 in H.
    rewrite map2_cons, !card_cons, !card_nil in H. cbn [map2 combine map] in H.
    rewrite card_nil in H. lia. }
  assert (Hr : (count_row (map2 andb r1 r2) <= count_row r2)%Z).
  { pose proof (inter_le_r [r1] [r2]) as H. unfold inter, grid_map2 in H.
    rewrite map2_cons, !card_cons, !card_nil in H. cbn [map2 combine map] in H.
    rewrite card_nil in H. lia. }
  cbn [length] in Hlen.
  destruct a, b; cbn [andb Z.b2z] in H1, H2; try lia;
    f_equal; apply IH; lia.
Qed.

Lemma grid_full_overlap (p t : grid bool) :
  same_shape p t ->
  card (inter p t) = card p -> card (inter p t) = card t -> p = t.
Proof.
  intros Hs. induction Hs as [|r1 r2 p t Hlen Hs IH]; intros H1 H2;
    [reflexivity|].
  unfold inter, grid_map2 in *. rewrite map2_cons, !card_cons in H1, H2.
  pose proof (inter_le_l p t) as Hl. pose proof (inter_le_r p t) as Hr.
  unfold inter, grid_map2 in Hl, Hr.
  assert (Hl' : (count_row (map2 andb r1 r2) <= count_row r1)%Z).
  { pose proof (inter_le_l [r1] [r2]) as H. unfold inter, grid_map2 in H.
    rewrite map2_cons, !card_cons, !card_nil in H. cbn [map2 combine map] in H.
    rewrite card_nil in H. lia. }
  assert (Hr' : (count_row (map2 andb r1 r2) <= count_row r2)%Z).
  { pose proof (inter_le_r [r1] [r2]) as H. unfold inter, grid_map2 in H.
    rewrite map2_cons, !card_cons, !card_nil in H. cbn [map2 combine map] in H.
    rewrite card_nil in H. lia. }
  f_equal.
  - apply row_full_overlap; [exact Hlen | lia | lia].
  - apply IH; lia.
Qed.

Lemma dice_single_number_bounds (d1 d2 : dtype) (pred truth : grid bool) :
  same_shape pred truth ->
  d1 = np_number \/ d2 = np_number ->
  exists r, dice_single (NdArray d1 pred) (NdArray d2 truth) = Fin r
            /\ 0 < r <= 1.
Proof.
  intros Hs Hd. rewrite (dice_single_number Hs Hd). eexists.
  split; [reflexivity|].
  pose proof (card_nonneg (inter pred truth)) as Hi.
  pose proof (inter_le_l pred truth) as Hl.
  pose proof (inter_le_r pred truth) as Hr.
  apply IZR_le in Hi, Hl, Hr. apply ratio_bounds; lra.
Qed.


Lemma grid_map2_swap (A C : Type) (f g : A -> A -> C) (p t : grid A) :
  (forall a b, f a b = g b a) -> grid_map2 f p t = grid_map2 g t p.
Proof.
  intros Hf. unfold grid_map2. rewrite map2_swap. apply map2_ext.
  intros r1 r2. rewrite map2_swap. apply map2_ext. intros a b.
  apply Hf.
Qed.

(** X3.  On two binary masks of one shape [dice_single] is symmetric in its
    arguments, whatever their dtypes; when at least one of them is of a
    number dtype it returns a finite score in (0, 1]. *)
Theorem dice_single_range (pred truth : ndarray) :
  same_shape (cells pred) (cells truth) ->
  dice_single truth pred = dice_single pred truth
  /\ (dtype_of pred = np_number \/ dtype_of truth = np_number ->
      exists r, dice_single pred truth = Fin r /\ 0 < r <= 1).
Proof.
  destruct pred as [d1 p], truth as [d2 t]. cbn [dtype_of cells].
  intros Hs. split.
  - unfold dice_single. cbn [dtype_of cells].
    rewrite (@grid_map2_swap _ _ (np_mul d2 d1) (np_mul d1 d2) t p)
      by (intros a b; destruct d1, d2, a, b; reflexivity).
    rewrite (@grid_map2_swap _ _ (np_add d2 d1) (np_add d1 d2) t p)
      by (intros a b; destruct d1, d2, a, b; reflexivity).
    reflexivity.
  - intros Hd. apply dice_single_number_bounds; assumption.
Qed.

Lemma dice_single_range_witness :
  same_shape [[true; false]; [true; true]] [[true; true]; [false; true]]
  /\ dice_single (number_array [[true; true]; [false; true]])
                 (bool_array [[true; false]; [true; true]])
     = dice_single (bool_array [[true; false]; [true; true]])
                   (number_array [[true; true]; [false; true]])
  /\ exists r,
      dice_single (bool_array [[true; false]; [true; true]])
                  (number_array [[true; true]; [false; true]])
      = Fin r
      /\ 0 < r <= 1.
Proof.
  assert (H : same_shape [[true; false]; [true; true]]
                         [[true; true]; [false; true]])
    by (repeat constructor).
  split; [exact H|].
  destruct (@dice_single_range (bool_array [[true; false]; [true; true]])
                               (number_array [[true; true]; [false; true]]) H)
    as [Hsym Hrange].
  split; [exact Hsym | apply Hrange; right; reflexivity].
Defined.

(** X4.  On two binary masks of one shape, at least one of them of a number
    dtype, [dice_single] returns 1 exactly when the two masks are equal. *)
Theorem dice_single_one_iff (pred truth : ndarray) :
  same_shape (cells pred) (cells truth) ->
  dtype_of pred = np_number \/ dtype_of truth = np_number ->
  (dice_single pred truth = Fin 1 <-> cells pred = cells truth).
Proof.
  destruct pred as [d1 p], truth as [d2 t]. cbn [dtype_of cells].
  intros Hs Hd. rewrite (dice_single_number Hs Hd). split.
  - intros H. injection H as H.
    pose proof (card_nonneg p) as Hp. pose proof (card_nonneg t) as Ht.
    pose proof (inter_le_l p t) as Hl.
    pose proof (inter_le_r p t) as Hr.
    assert (Hden : IZR (card p) + IZR (card t) + 1 <> 0)
      by (apply IZR_le in Hp, Ht; lra).
    apply (f_equal (fun x => x * (IZR (card p) + IZR (card t) + 1))) in H.
    unfold Rdiv in H. rewrite Rmult_assoc, Rinv_l, Rmult_1_r, Rmult_1_l in H
      by exact Hden.
    assert (HZ : (2 * card (inter p t) = card p + card t)%Z).
    { apply eq_IZR. rewrite mult_IZR, plus_IZR. lra. }
    apply (grid_full_overlap Hs); lia.
  - intros <-. rewrite inter_self. f_equal.
    pose proof (card_nonneg p) as Hp. apply IZR_le in Hp. field. lra.
Qed.

Lemma dice_single_one_iff_witness :
  same_shape [[true; false]] [[true; false]]
  /\ (dice_single (bool_array [[true; false]]) (number_array [[true; false]])
      = Fin 1
      <-> cells (bool_array [[true; false]])
          = cells (number_array [[true; false]])).
Proof.
  assert (H : same_shape [[true; false]] [[true; false]])
    by (repeat constructor).
  split; [exact H|].
  apply (@dice_single_one_iff (bool_array [[true; false]])
                              (number_array [[true; false]]) H).
  right. reflexivity.
Defined.

End DiceSingleMore.

(** ** explode_img *)

Section ExplodeImg.

Local Open Scope npfloat_scope.

Lemma grid_map_map (A B C : Type) (f : B -> C) (g : A -> B) (m : grid A) :
  grid_map f (grid_map g m) = grid_map (fun x => f (g x)) m.
Proof.
  unfold grid_map. rewrite map_map. apply map_ext. intros row.
  apply map_map.
Qed.

Lemma grid_map_ext (A B : Type) (f g : A -> B) (m : grid A) :
  (forall x, f x = g x) -> grid_map f m = grid_map g m.
Proof.
  intros H. unfold grid_map. apply map_ext. intros row. apply map_ext, H.
Qed.

Lemma grid_map_ext_in (A B : Type) (f g : A -> B) (m : grid A) :
  Forall (Forall (fun x => f x = g x)) m -> grid_map f m = grid_map g m.
Proof.
  intros H. unfold grid_map. apply map_ext_in. intros row Hrow.
  apply map_ext_in. intros x Hx.
  rewrite Forall_forall in H. specialize (H row Hrow).
  rewrite Forall_forall in H. exact (H x Hx).
Qed.

Lemma grid_map_id (A : Type) (m : grid A) : grid_map (fun x => x) m = m.
Proof. unfold grid_map. rewrite (map_ext _ (fun r => r)); [apply map_id|]. intros r. apply map_id. Qed.

(** The class plane of an exploded image is the mask of the class. *)
Lemma plane_explode (c : organ_class) (img : grid Z) :
  plane c (explode_img img) = mask_eq img (class_index c).
Proof.
  unfold plane, explode_img, mask_eq. rewrite grid_map_map.
  apply grid_map_ext. intros v. destruct c; reflexivity.
Qed.

Lemma decode_exploded_pixel (v : Z) :
  astype_uint8
    (Z.of_nat
       (argmax
          (channels
             (Px6 (inject_Z (Z.b2z (v =? 0))) (inject_Z (Z.b2z (v =? 1)))
                  (inject_Z (Z.b2z (v =? 2))) (inject_Z (Z.b2z (v =? 3)))
                  (inject_Z (Z.b2z (v =? 4))) (inject_Z (Z.b2z (v =? 5)))))))%Z
  = if is_label v then v else 0%Z.
Proof.
  unfold is_label.
  destruct (v =? 0)%Z eqn:E0; [apply Z.eqb_eq in E0; subst v; reflexivity|].
  destruct (v =? 1)%Z eqn:E1; [apply Z.eqb_eq in E1; subst v; reflexivity|].
  destruct (v =? 2)%Z eqn:E2; [apply Z.eqb_eq in E2; subst v; reflexivity|].
  destruct (v =? 3)%Z eqn:E3; [apply Z.eqb_eq in E3; subst v; reflexivity|].
  destruct (v =? 4)%Z eqn:E4; [apply Z.eqb_eq in E4; subst v; reflexivity|].
  destruct (v =? 5)%Z eqn:E5; [apply Z.eqb_eq in E5; subst v; reflexivity|].
  apply Z.eqb_neq in E0, E1, E2, E3, E4, E5.
  replace ((0 <=? v) && (v <=? 5))%Z with false.
  - reflexivity.
  - symmetry. apply andb_false_iff.
    destruct (Z.leb_spec 0 v); [right | left; reflexivity].
    apply Z.leb_gt. lia.
Qed.

(** X1.  Exploding a label image and decoding the result with
    [prepare_prediction] gives back every label 0..5 and turns every other
    label into 0; an image of labels 0..5 is recovered unchanged. *)
Theorem explode_img_decode (img : grid Z) :
  prepare_prediction (as_scores (explode_img img))
  = grid_map (fun v => if is_label v then v else 0%Z) img
  /\ (Forall (Forall (fun v => is_label v = true)) img ->
      prepare_prediction (as_scores (explode_img img)) = img).
Proof.
  assert (H : prepare_prediction (as_scores (explode_img img))
              = grid_map (fun v => if is_label v then v else 0%Z) img).
  { unfold prepare_prediction, as_scores, explode_img.
    rewrite !grid_map_map. apply grid_map_ext. intros v.
    cbn [c_background c_liver c_bladder c_lungs c_kidneys c_bones].
    apply decode_exploded_pixel. }
  split; [exact H|]. intros Hl. rewrite H.
  rewrite <- (grid_map_id img) at 2. apply grid_map_ext_in.
  revert Hl. apply Forall_impl. intros row. apply Forall_impl.
  intros v Hv. rewrite Hv. reflexivity.
Qed.

Lemma explode_img_decode_witness :
  Forall (Forall (fun v => is_label v = true)) [[0; 5]; [3; 1]]%Z
  /\ prepare_prediction (as_scores (explode_img [[0; 5]; [3; 1]]%Z))
     = [[0; 5]; [3; 1]]%Z.
Proof.
  assert (H : Forall (Forall (fun v => is_label v = true)) [[0; 5]; [3; 1]]%Z)
    by (repeat constructor).
  split; [exact H | exact (proj2 (explode_img_decode [[0; 5]; [3; 1]]%Z) H)].
Defined.

Lemma weighted_dice_all_one (mask : grid Z) (truth : ground_truth) :
  (forall c, c <> Background -> organ_dice c mask truth = Fin 1) ->
  weighted_dice mask truth = Fin 1.
Proof.
  intros H. rewrite weighted_dice_unfold.
  rewrite !H by discriminate.
  pose proof (card_nonneg (plane Liver truth)) as H1.
  pose proof (card_nonneg (plane Bladder truth)) as H2.
  pose proof (card_nonneg (plane Lungs truth)) as H3.
  pose proof (card_nonneg (plane Kidneys truth)) as H4.
  pose proof (card_nonneg (plane Bones truth)) as H5.
  unfold organ_weight, of_Z. cbn [fmul fadd].
  rewrite !plus_IZR.
  apply IZR_le in H1, H2, H3, H4, H5.
  rewrite fdiv_Fin by lra. f_equal. field. lra.
Qed.

Lemma organ_dice_explode (c : organ_class) (img : grid Z) :
  organ_dice c img (explode_img img) = Fin 1.
Proof. unfold organ_dice. rewrite plane_explode. apply dice_single_self. Qed.

(** X2.  A class mask scored against its own explosion is a perfect
    prediction: [dice_total] returns a weighted Dice of exactly 1, whatever
    labels the mask holds, and each organ product is the organ's pixel
    weight. *)
Theorem dice_total_explode (img : grid Z) (g : accum) :
  fst (dice_total img (explode_img img) g)
  = (Fin 1,
     of_Z (organ_weight Liver (explode_img img)),
     of_Z (organ_weight Bladder (explode_img img)),
     of_Z (organ_weight Lungs (explode_img img)),
     of_Z (organ_weight Kidneys (explode_img img)),
     of_Z (organ_weight Bones (explode_img img))).
Proof.
  rewrite dice_total_eq. cbn [fst].
  rewrite weighted_dice_all_one by (intros c _; apply organ_dice_explode).
  rewrite !organ_dice_explode. unfold of_Z. cbn [fmul].
  rewrite !Rmult_1_l. reflexivity.
Qed.

End ExplodeImg.

(** ** Ranges of the scores *)

Section Ranges.

Local Open Scope R_scope.

Lemma same_shape_maps (A B C D : Type) (f : A -> C) (g : B -> D)
  (m : grid A) (t : grid B) :
  same_shape m t -> same_shape (grid_map f m) (grid_map g t).
Proof.
  intros H. unfold grid_map. induction H as [|r1 r2 m t Hr Hs IH].
  - constructor.
  - cbn [map]. constructor; [rewrite !length_map; exact Hr | exact IH].
Qed.




End Ranges.

(** ** Further properties of [evaluate_results] *)

Section EvaluateResultsMore.

Local Open Scope npfloat_scope.

(** Every line of the report of a call that returns. *)
Lemma evaluate_results_lines (list_pred : list prediction)
  (list_true : list ground_truth) (g : accum) :
  (length list_pred <= length list_true)%nat ->
  exists rep g',
    evaluate_results list_pred list_true g = Returned rep g'
    /\ (forall c, c <> Background ->
          n_of c g'
          = (n_of c g + organ_weight_sum c (combine list_pred list_true))%Z)
    /\ (forall c, c <> Background ->
          mean_of c rep
          = np_sum (map (contribution c) (combine list_pred list_true))
            / of_Z (n_of c g
                    + organ_weight_sum c (combine list_pred list_true))
            * of_Z 100)
    /\ (forall c, c <> Background ->
          std_of c rep
          = np_std (map (contribution c) (combine list_pred list_true))
            / of_Z (n_of c g
                    + organ_weight_sum c (combine list_pred list_true))
            * of_Z 100)
    /\ organs_mean rep
       = dataset_weighted_sum (combine list_pred list_true)
         / of_Z (n_of Liver g + n_of Bladder g + n_of Lungs g
                 + n_of Kidneys g + n_of Bones g
                 + dataset_weight (combine list_pred list_true))
         * of_Z 100
    /\ slices_mean rep
       = np_mean (map (fun s => weighted_dice (prepare_prediction (fst s))
                                              (snd s))
                      (combine list_pred list_true))
         * of_Z 100
    /\ slices_std rep
       = np_std (map (fun s => weighted_dice (prepare_prediction (fst s))
                                             (snd s))
                     (combine list_pred list_true))
         * of_Z 100.
Proof.
  intros Hlen. rewrite (@evaluate_results_ok list_pred list_true g Hlen).
  eexists. eexists. split; [reflexivity|].
  split; [|split; [|split; [|split; [|split]]]].
  - intros c Hc. rewrite run_n_of by exact Hc. reflexivity.
  - intros c Hc.
    rewrite (mean_of_eq _ _ Hc), run_total_of0, run_n_of by exact Hc.
    reflexivity.
  - intros c Hc.
    rewrite (std_of_eq _ _ Hc), run_total_of0, run_n_of by exact Hc.
    reflexivity.
  - rewrite organs_mean_eq.
    rewrite !run_total_of0 by discriminate.
    rewrite !run_n_of by discriminate.
    rewrite organ_sums_swap, dataset_weight_split. cbn [snd].
    f_equal. f_equal. f_equal. ring.
  - unfold print_report. cbn [slices_mean]. rewrite run_dices. reflexivity.
  - unfold print_report. cbn [slices_std]. rewrite run_dices. reflexivity.
Qed.

(** X6.  The accumulators are not reset between calls.  After a first call
    on a dataset A, a second call in the same process on a dataset B divides
    the weighted sums of B by the pixel weights of A and B together, in the
    aggregate line and in every organ line. *)
Theorem second_call_keeps_weights (A_pred : list prediction)
  (A_true : list ground_truth) (B_pred : list prediction)
  (B_true : list ground_truth) :
  (length A_pred <= length A_true)%nat ->
  (length B_pred <= length B_true)%nat ->
  exists rep1 g1 rep2 g2,
    evaluate_results A_pred A_true accum0 = Returned rep1 g1
    /\ evaluate_results B_pred B_true g1 = Returned rep2 g2
    /\ organs_mean rep2
       = dataset_weighted_sum (combine B_pred B_true)
         / of_Z (dataset_weight (combine A_pred A_true)
                 + dataset_weight (combine B_pred B_true))
         * of_Z 100
    /\ (forall c, c <> Background ->
          mean_of c rep2
          = np_sum (map (contribution c) (combine B_pred B_true))
            / of_Z (organ_weight_sum c (combine A_pred A_true)
                    + organ_weight_sum c (combine B_pred B_true))
            * of_Z 100).
Proof.
  intros HA HB.
  destruct (@evaluate_results_lines A_pred A_true accum0 HA)
    as [rep1 [g1 [E1 [N1 _]]]].
  destruct (@evaluate_results_lines B_pred B_true g1 HB)
    as [rep2 [g2 [E2 [_ [M2 [_ [O2 _]]]]]]].
  exists rep1, g1, rep2, g2. split; [exact E1|]. split; [exact E2|]. split.
  - rewrite O2. rewrite !N1 by discriminate.
    rewrite (dataset_weight_split (combine A_pred A_true)).
    cbn [n_of accum0 n_liver n_bladder n_lungs n_kidneys n_bones].
    rewrite !Z.add_0_l. reflexivity.
  - intros c Hc. rewrite (M2 c Hc), (N1 c Hc).
    destruct c; try contradiction; reflexivity.
Qed.

Lemma second_call_keeps_weights_witness :
  exists rep1 g1 rep2 g2,
    evaluate_results [liver_pred] [liver_truth] accum0 = Returned rep1 g1
    /\ evaluate_results [background_pred] [liver_truth] g1 = Returned rep2 g2
    /\ organs_mean rep2
       = dataset_weighted_sum (combine [background_pred] [liver_truth])
         / of_Z (dataset_weight (combine [liver_pred] [liver_truth])
                 + dataset_weight (combine [background_pred] [liver_truth]))
         * of_Z 100
    /\ (forall c, c <> Background ->
          mean_of c rep2
          = np_sum (map (contribution c) (combine [background_pred] [liver_truth]))
            / of_Z (organ_weight_sum c (combine [liver_pred] [liver_truth])
                    + organ_weight_sum c (combine [background_pred] [liver_truth]))
            * of_Z 100).
Proof.
  apply (@second_call_keeps_weights [liver_pred] [liver_truth]
                                    [background_pred] [liver_truth]);
    cbn [length]; lia.
Defined.

Lemma Rsum_const (A : Type) (k : R) (l : list A) :
  Rsum (map (fun _ => k) l) = (INR (length l) * k)%R.
Proof.
  induction l as [|a l IH].
  - cbn. ring.
  - rewrite map_cons, Rsum_cons, IH. change (length (a :: l)) with (S (length l)).
    rewrite S_INR. ring.
Qed.

Lemma pop_std_const (A : Type) (k : R) (l : list A) :
  l <> [] -> pop_std (map (fun _ => k) l) = 0%R.
Proof.
  intros Hl. pose proof (INR_length_pos Hl) as Hn.
  unfold pop_std. rewrite length_map, Rsum_const, map_map.
  replace (INR (length l) * k / INR (length l))%R with k by (field; lra).
  rewrite Rsum_const.
  replace (INR (length l) * ((k - k) * (k - k)) / INR (length l))%R with 0%R
    by (field; lra).
  apply sqrt_0.
Qed.

(** A dataset whose samples all score [k]: the mean is [k], the deviation 0. *)
Lemma constant_scores (A : Type) (f : A -> npfloat) (k : R) (l : list A) :
  l <> [] ->
  Forall (fun x => f x = Fin k) l ->
  np_mean (map f l) = Fin k /\ np_std (map f l) = Fin 0.
Proof.
  intros Hl Hf.
  assert (E : map f l = map Fin (map (fun _ => k) l)).
  { rewrite map_map. apply map_ext_in. intros x Hx.
    rewrite Forall_forall in Hf. exact (Hf x Hx). }
  assert (Hne : map (fun _ : A => k) l <> [])
    by (destruct l; [contradiction | discriminate]).
  pose proof (INR_length_pos Hl) as Hn.
  rewrite E. split.
  - rewrite (np_mean_Fin Hne), length_map, Rsum_const. f_equal. field. lra.
  - rewrite (np_std_Fin Hne), (pop_std_const k Hl). reflexivity.
Qed.

Lemma combine_nonempty (A B : Type) (l : list A) (l' : list B) :
  l <> [] -> (length l <= length l')%nat -> combine l l' <> [].
Proof.
  intros Hl Hlen. destruct l as [|x l]; [contradiction|].
  destruct l' as [|y l']; [cbn [length] in Hlen; lia | discriminate].
Qed.






Lemma fmul_Fin (a b : R) : Fin a * Fin b = Fin (a * b).
Proof. reflexivity. Qed.

(** X7.  When every ground truth is the explosion of the class mask decoded
    from its prediction (a dataset predicted perfectly), a non-empty run
    reports a mean on slices of 100 with deviation 0 and, starting from zero
    accumulators, a mean of 100 for every organ that occurs. *)
Theorem perfect_dataset_report (list_pred : list prediction)
  (list_true : list ground_truth) :
  (length list_pred <= length list_true)%nat ->
  list_pred <> [] ->
  Forall (fun s : sample => snd s = explode_img (prepare_prediction (fst s)))
         (combine list_pred list_true) ->
  exists rep g',
    evaluate_results list_pred list_true accum0 = Returned rep g'
    /\ slices_mean rep = Fin 100
    /\ slices_std rep = Fin 0
    /\ (forall c, c <> Background ->
          (0 < organ_weight_sum c (combine list_pred list_true))%Z ->
          mean_of c rep = Fin 100).
Proof.
  intros Hlen Hne Hperfect.
  destruct (@evaluate_results_lines list_pred list_true accum0 Hlen)
    as [rep [g' [E [_ [M [_ [_ [SM SS]]]]]]]].
  exists rep, g'. split; [exact E|].
  assert (Hone : Forall (fun s : sample =>
                           weighted_dice (prepare_prediction (fst s)) (snd s)
                           = Fin 1)
                        (combine list_pred list_true)).
  { revert Hperfect. apply Forall_impl. intros s Hs. rewrite Hs.
    apply weighted_dice_all_one. intros c _. apply organ_dice_explode. }
  assert (Hcomb : combine list_pred list_true <> [])
    by (apply combine_nonempty; assumption).
  destruct (@constant_scores _ _ 1%R _ Hcomb Hone) as [Em Es].
  split; [|split; [|]].
  - unfold sample in *. rewrite SM, Em. unfold of_Z. rewrite fmul_Fin.
    f_equal. lra.
  - unfold sample in *. rewrite SS, Es. unfold of_Z. rewrite fmul_Fin.
    f_equal. lra.
  - intros c Hc Hpos. rewrite (M c Hc).
    replace (n_of c accum0) with 0%Z by (destruct c; reflexivity).
    rewrite Z.add_0_l.
    assert (Ec : map (contribution c) (combine list_pred list_true)
                 = map Fin (map (fun s : sample => IZR (organ_weight c (snd s)))
                                (combine list_pred list_true))).
    { rewrite map_map. apply map_ext_in. intros s Hs.
      rewrite Forall_forall in Hperfect. specialize (Hperfect s Hs).
      unfold contribution. rewrite Hperfect at 2.
      rewrite organ_dice_explode. unfold of_Z. rewrite fmul_Fin.
      f_equal. ring. }
    rewrite Ec, np_sum_Fin.
    assert (Esum : Rsum (map (fun s : sample => IZR (organ_weight c (snd s)))
                             (combine list_pred list_true))
                   = IZR (organ_weight_sum c (combine list_pred list_true))).
    { unfold organ_weight_sum. clear.
      induction (combine list_pred list_true) as [|s l IH].
      - reflexivity.
      - cbn [map]. rewrite Rsum_cons, Zsum_cons, plus_IZR, IH. reflexivity. }
    rewrite Esum. apply IZR_lt in Hpos. unfold of_Z.
    rewrite fdiv_Fin by lra. rewrite fmul_Fin. f_equal. field. lra.
Qed.

Lemma perfect_dataset_report_witness :
  exists rep g',
    evaluate_results [liver_pred; background_pred]
                     [liver_truth; background_truth] accum0
    = Returned rep g'
    /\ slices_mean rep = Fin 100
    /\ slices_std rep = Fin 0
    /\ (forall c, c <> Background ->
          (0 < organ_weight_sum c
                 (combine [liver_pred; background_pred]
                          [liver_truth; background_truth]))%Z ->
          mean_of c rep = Fin 100).
Proof.
  apply (@perfect_dataset_report [liver_pred; background_pred]
                                 [liver_truth; background_truth]).
  - cbn [length]. lia.
  - discriminate.
  - repeat constructor.
Defined.

Lemma contribution_no_organ (c : organ_class) (s : sample) :
  c <> Background -> no_organ_pixels (snd s) = true ->
  contribution c s = Fin 0.
Proof.
  intros Hc H. unfold contribution.
  rewrite (@no_organ_weight c (snd s) Hc H).
  destruct (organ_dice_Fin c (prepare_prediction (fst s)) (snd s)) as [d ->].
  unfold of_Z. rewrite fmul_Fin. f_equal. ring.
Qed.

Lemma organ_weight_sum_no_organ (c : organ_class) (samples : list sample) :
  c <> Background ->
  Forall (fun s : sample => no_organ_pixels (snd s) = true) samples ->
  organ_weight_sum c samples = 0%Z.
Proof.
  intros Hc H. unfold organ_weight_sum. induction H as [|s l Hs _ IH].
  - reflexivity.
  - cbn [map]. rewrite Zsum_cons, IH, (@no_organ_weight c (snd s) Hc Hs).
    reflexivity.
Qed.

(** X9.  On a non-empty dataset whose ground truths hold no organ pixel, a
    run from zero accumulators reports a mean on slices of 100 with
    deviation 0 whatever the predictions are, while both numbers of every
    organ line are [nan]. *)
Theorem background_only_report (list_pred : list prediction)
  (list_true : list ground_truth) :
  (length list_pred <= length list_true)%nat ->
  list_pred <> [] ->
  Forall (fun s : sample => no_organ_pixels (snd s) = true)
         (combine list_pred list_true) ->
  exists rep g',
    evaluate_results list_pred list_true accum0 = Returned rep g'
    /\ slices_mean rep = Fin 100
    /\ slices_std rep = Fin 0
    /\ (forall c, c <> Background ->
          mean_of c rep = NaN /\ std_of c rep = NaN).
Proof.
  intros Hlen Hne Hbg.
  destruct (@evaluate_results_lines list_pred list_true accum0 Hlen)
    as [rep [g' [E [_ [M [S [_ [SM SS]]]]]]]].
  exists rep, g'. split; [exact E|].
  assert (Hcomb : combine list_pred list_true <> [])
    by (apply combine_nonempty; assumption).
  assert (Hone : Forall (fun s : sample =>
                           weighted_dice (prepare_prediction (fst s)) (snd s)
                           = Fin 1)
                        (combine list_pred list_true)).
  { revert Hbg. apply Forall_impl. intros s Hs.
    apply weighted_dice_no_organ, Hs. }
  destruct (@constant_scores _ _ 1%R _ Hcomb Hone) as [Em Es].
  split; [|split; [|]].
  - unfold sample in *. rewrite SM, Em. unfold of_Z. rewrite fmul_Fin.
    f_equal. lra.
  - unfold sample in *. rewrite SS, Es. unfold of_Z. rewrite fmul_Fin.
    f_equal. lra.
  - intros c Hc.
    assert (Hzero : Forall (fun s : sample => contribution c s = Fin 0)
                           (combine list_pred list_true)).
    { revert Hbg. apply Forall_impl. intros s Hs.
      apply contribution_no_organ; assumption. }
    destruct (@constant_scores _ (contribution c) 0%R _ Hcomb Hzero) as [_ Ezs].
    assert (Ez : np_sum (map (contribution c) (combine list_pred list_true))
                 = Fin 0).
    { rewrite (np_sum_map_to_R _ _ (contribution_Fin c)). f_equal.
      rewrite (map_ext_in _ (fun _ => 0%R)).
      - rewrite Rsum_const. ring.
      - intros s Hs. rewrite Forall_forall in Hzero. rewrite (Hzero s Hs).
        reflexivity. }
    rewrite (M c Hc), (S c Hc), Ez, Ezs.
    rewrite (organ_weight_sum_no_organ Hc Hbg).
    replace (n_of c accum0) with 0%Z by (destruct c; reflexivity).
    cbn [Z.add]. unfold of_Z. rewrite fdiv_zero_zero. split; reflexivity.
Qed.

Lemma background_only_report_witness :
  exists rep g',
    evaluate_results [liver_pred; background_pred]
                     [background_truth; background_truth] accum0
    = Returned rep g'
    /\ slices_mean rep = Fin 100
    /\ slices_std rep = Fin 0
    /\ (forall c, c <> Background ->
          mean_of c rep = NaN /\ std_of c rep = NaN).
Proof.
  apply (@background_only_report [liver_pred; background_pred]
                                 [background_truth; background_truth]).
  - cbn [length]. lia.
  - discriminate.
  - repeat constructor.
Defined.

End EvaluateResultsMore.

(** ** The collection loop of main *)

Section MainLoop.

Lemma collect_batch_lengths (predictions : list prediction)
  (y : list ground_truth) (n j : nat) (preds : list prediction)
  (true_ : list ground_truth) (preds' : list prediction)
  (true' : list ground_truth) :
  collect_batch predictions y j n preds true_ = Some (preds', true') ->
  length preds' = (length preds + n)%nat
  /\ length true' = (length true_ + n)%nat.
Proof.
  revert j preds true_. induction n as [|n IH]; intros j preds true_ H.
  - cbn [collect_batch] in H. injection H as <- <-. lia.
  - cbn [collect_batch] in H.
    destruct (nth_error predictions j) as [p|]; [|discriminate].
    destruct (nth_error y j) as [t|]; [|discriminate].
    apply IH in H. rewrite !length_app in H. cbn [length] in H. lia.
Qed.

Lemma collect_loop_lengths (data : batch_source) (batchsize n i : nat)
  (preds : list prediction) (true_ : list ground_truth)
  (preds' : list prediction) (true' : list ground_truth) :
  collect_loop data batchsize i n preds true_ = Some (preds', true') ->
  length preds' = (length preds + n * batchsize)%nat
  /\ length true' = (length true_ + n * batchsize)%nat.
Proof.
  revert i preds true_. induction n as [|n IH]; intros i preds true_ H.
  - cbn [collect_loop] in H. injection H as <- <-. lia.
  - cbn [collect_loop] in H. destruct (data i) as [predictions y].
    destruct (collect_batch predictions y 0 batchsize preds true_)
      as [[p1 t1]|] eqn:E; [|discriminate].
    apply collect_batch_lengths in E. apply IH in H. lia.
Qed.

Lemma collect_batch_ok (predictions : list prediction)
  (y : list ground_truth) (n j : nat) (preds : list prediction)
  (true_ : list ground_truth) :
  (j + n <= length predictions)%nat ->
  (j + n <= length y)%nat ->
  collect_batch predictions y j n preds true_
  = Some (preds ++ firstn n (skipn j predictions),
          true_ ++ firstn n (skipn j y)).
Proof.
  revert j preds true_. induction n as [|n IH]; intros j preds true_ Hp Hy.
  - cbn [collect_batch firstn]. rewrite !app_nil_r. reflexivity.
  - cbn [collect_batch].
    destruct (nth_error predictions j) as [p|] eqn:Ep;
      [|apply nth_error_None in Ep; lia].
    destruct (nth_error y j) as [t|] eqn:Ey;
      [|apply nth_error_None in Ey; lia].
    rewrite IH by lia.
    rewrite (skipn_nth_error _ _ Ep), (skipn_nth_error _ _ Ey).
    cbn [firstn]. rewrite <- !app_assoc. reflexivity.
Qed.

Lemma collect_batch_short (predictions : list prediction)
  (y : list ground_truth) (n j : nat) (preds : list prediction)
  (true_ : list ground_truth) :
  (j <= length predictions)%nat -> (j <= length y)%nat ->
  (length predictions < j + n)%nat \/ (length y < j + n)%nat ->
  collect_batch predictions y j n preds true_ = None.
Proof.
  revert j preds true_. induction n as [|n IH]; intros j preds true_ Hp Hy H.
  - lia.
  - cbn [collect_batch].
    destruct (nth_error predictions j) as [p|] eqn:Ep; [|reflexivity].
    destruct (nth_error y j) as [t|] eqn:Ey; [|reflexivity].
    assert (j < length predictions)%nat
      by (apply nth_error_Some; rewrite Ep; discriminate).
    assert (j < length y)%nat
      by (apply nth_error_Some; rewrite Ey; discriminate).
    apply IH; lia.
Qed.

(** When every batch is long enough the loop collects the first [batchsize]
    entries of each batch, in order. *)
Lemma collect_loop_ok (data : batch_source) (batchsize n i : nat)
  (preds : list prediction) (true_ : list ground_truth) :
  (forall k, (i <= k < i + n)%nat ->
             (batchsize <= length (fst (data k)))%nat
             /\ (batchsize <= length (snd (data k)))%nat) ->
  collect_loop data batchsize i n preds true_
  = Some (preds
          ++ concat (map (fun k => firstn batchsize (fst (data k))) (seq i n)),
          true_
          ++ concat (map (fun k => firstn batchsize (snd (data k))) (seq i n))).
Proof.
  revert i preds true_. induction n as [|n IH]; intros i preds true_ H.
  - cbn [collect_loop seq map concat]. rewrite !app_nil_r. reflexivity.
  - cbn [collect_loop seq map concat].
    destruct (H i) as [Hp Hy]; [lia|].
    destruct (data i) as [predictions y] eqn:Ed. cbn [fst snd] in *.
    rewrite collect_batch_ok by lia. cbn [skipn].
    rewrite IH by (intros k Hk; apply H; lia).
    rewrite <- !app_assoc. reflexivity.
Qed.

(** A batch shorter than the batch size stops the loop with [IndexError]. *)
Lemma collect_loop_short (data : batch_source) (batchsize n i : nat)
  (preds : list prediction) (true_ : list ground_truth) :
  (exists k, (i <= k < i + n)%nat
             /\ ((length (fst (data k)) < batchsize)%nat
                 \/ (length (snd (data k)) < batchsize)%nat)) ->
  collect_loop data batchsize i n preds true_ = None.
Proof.
  revert i preds true_. induction n as [|n IH]; intros i preds true_ [k [Hk Hs]].
  - lia.
  - cbn [collect_loop].
    destruct (data i) as [predictions y] eqn:Ed.
    destruct (collect_batch predictions y 0 batchsize preds true_)
      as [[p1 t1]|] eqn:E; [|reflexivity].
    apply IH. exists k. split; [|exact Hs].
    destruct (Nat.eq_dec k i) as [->|Hne]; [|lia].
    rewrite Ed in Hs. cbn [fst snd] in Hs.
    rewrite collect_batch_short in E by lia. discriminate E.
Qed.

(** X10.  In [main] a zero batch size fails in [cal_samples // batchsize].
    Otherwise, when each of the [cal_samples // batchsize] batches holds at
    least [batchsize] predictions and ground truths, [main] collects the
    first [batchsize] entries of every batch, in order, into two lists of
    [batchsize * (cal_samples // batchsize)] entries each, the [assert] on
    their lengths passes and [evaluate_results] returns its report on them;
    when some batch is shorter than the batch size, [main] fails with
    [IndexError] while collecting. *)
Theorem main_lengths_agree (data : batch_source) (cal_samples batchsize : Z)
  (g : accum) :
  (batchsize = 0%Z ->
   main_from_loop data cal_samples batchsize g = MainZeroDivisionError)
  /\ (batchsize <> 0%Z ->
      (forall i, (i < Z.to_nat (cal_samples / batchsize))%nat ->
                 (Z.to_nat batchsize <= length (fst (data i)))%nat
                 /\ (Z.to_nat batchsize <= length (snd (data i)))%nat) ->
      exists rep g',
        evaluate_results
          (concat (map (fun i => firstn (Z.to_nat batchsize) (fst (data i)))
                       (seq 0 (Z.to_nat (cal_samples / batchsize)))))
          (concat (map (fun i => firstn (Z.to_nat batchsize) (snd (data i)))
                       (seq 0 (Z.to_nat (cal_samples / batchsize)))))
          g
        = Returned rep g'
        /\ main_from_loop data cal_samples batchsize g
           = MainEvaluated (Returned rep g')
        /\ length
             (concat (map (fun i => firstn (Z.to_nat batchsize) (fst (data i)))
                          (seq 0 (Z.to_nat (cal_samples / batchsize)))))
           = (Z.to_nat (cal_samples / batchsize) * Z.to_nat batchsize)%nat
        /\ length
             (concat (map (fun i => firstn (Z.to_nat batchsize) (snd (data i)))
                          (seq 0 (Z.to_nat (cal_samples / batchsize)))))
           = (Z.to_nat (cal_samples / batchsize) * Z.to_nat batchsize)%nat)
  /\ (batchsize <> 0%Z ->
      (exists i, (i < Z.to_nat (cal_samples / batchsize))%nat
                 /\ ((length (fst (data i)) < Z.to_nat batchsize)%nat
                     \/ (length (snd (data i)) < Z.to_nat batchsize)%nat)) ->
      main_from_loop data cal_samples batchsize g = MainIndexError).
Proof.
  unfold main_from_loop. split; [|split].
  - intros ->. reflexivity.
  - intros Hne Hfull. apply Z.eqb_neq in Hne. rewrite Hne.
    assert (E := @collect_loop_ok data (Z.to_nat batchsize)
                   (Z.to_nat (cal_samples / batchsize)) 0 [] []
                   (fun k Hk => Hfull k (proj2 Hk))).
    cbn [app] in E. rewrite E.
    destruct (collect_loop_lengths _ _ _ _ _ _ E) as [Hp Ht].
    cbn [length] in Hp, Ht.
    set (preds := concat (map (fun i => firstn (Z.to_nat batchsize)
                                               (fst (data i)))
                              (seq 0 (Z.to_nat (cal_samples / batchsize)))))
      in *.
    set (true_ := concat (map (fun i => firstn (Z.to_nat batchsize)
                                               (snd (data i)))
                              (seq 0 (Z.to_nat (cal_samples / batchsize)))))
      in *.
    assert (Hlen : (length preds <= length true_)%nat) by lia.
    pose proof (@evaluate_results_ok preds true_ g Hlen) as Hok.
    eexists. eexists. split; [exact Hok|]. split; [|split; lia].
    unfold main_evaluate.
    replace (length preds =? length true_)%nat with true
      by (symmetry; apply Nat.eqb_eq; lia).
    rewrite Hok. reflexivity.
  - intros Hne [i [Hi Hs]]. apply Z.eqb_neq in Hne. rewrite Hne.
    rewrite collect_loop_short; [reflexivity|].
    exists i. split; [lia | exact Hs].
Qed.

Lemma main_lengths_agree_witness :
  exists rep g',
    evaluate_results
      (concat (map (fun i : nat => firstn (Z.to_nat 2)
                                     [liver_pred; background_pred])
                   (seq 0 (Z.to_nat (5 / 2)))))
      (concat (map (fun i : nat => firstn (Z.to_nat 2)
                                     [liver_truth; background_truth])
                   (seq 0 (Z.to_nat (5 / 2)))))
      accum0
    = Returned rep g'
    /\ main_from_loop
         (fun _ => ([liver_pred; background_pred],
                    [liver_truth; background_truth]))
         5 2 accum0
       = MainEvaluated (Returned rep g')
    /\ length
         (concat (map (fun i : nat => firstn (Z.to_nat 2)
                                        [liver_pred; background_pred])
                      (seq 0 (Z.to_nat (5 / 2)))))
       = (Z.to_nat (5 / 2) * Z.to_nat 2)%nat
    /\ length
         (concat (map (fun i : nat => firstn (Z.to_nat 2)
                                        [liver_truth; background_truth])
                      (seq 0 (Z.to_nat (5 / 2)))))
       = (Z.to_nat (5 / 2) * Z.to_nat 2)%nat.
Proof.
  apply (proj1 (proj2 (main_lengths_agree
                         (fun _ => ([liver_pred; background_pred],
                                    [liver_truth; background_truth]))
                         5 2 accum0))).
  - discriminate.
  - intros i _. cbn [fst snd length]. split; apply Nat.le_refl.
Defined.

(** The evaluation stage of [main] never raises: the two lists it is given
    were appended to in lock-step. *)
Lemma main_evaluation_returns (data : batch_source) (cal_samples batchsize : Z)
  (g : accum) (e : exn) (g' : accum) :
  main_from_loop data cal_samples batchsize g <> MainEvaluated (Raised e g').
Proof.
  unfold main_from_loop.
  destruct (batchsize =? 0)%Z; [discriminate|].
  destruct (collect_loop data (Z.to_nat batchsize) 0
              (Z.to_nat (cal_samples / batchsize)) [] [])
    as [[preds true_]|] eqn:E; [|discriminate].
  destruct (collect_loop_lengths _ _ _ _ _ _ E) as [Hp Ht].
  cbn [length] in Hp, Ht.
  assert (Hlen : (length preds <= length true_)%nat) by lia.
  unfold main_evaluate.
  replace (length preds =? length true_)%nat with true
    by (symmetry; apply Nat.eqb_eq; lia).
  rewrite (@evaluate_results_ok preds true_ g Hlen). discriminate.
Qed.

End MainLoop.

(** ** Sequences of different lengths *)

Section LengthMismatch.

(** C5, as the code has it.  [evaluate_results] does not compare the lengths
    of its two sequences.  With fewer ground truths than predictions it
    fails with [IndexError] on reaching the first missing index, after the
    samples in front of it have been processed and their organ pixel
    weights added to the accumulators; with more ground truths than
    predictions it returns.  The one length check of the repository is the
    [assert] at the end of [main], ahead of the call: [main] appends to both
    lists in lock-step, so the evaluation stage of [main] never raises. *)
Theorem length_mismatch_behaviour (list_pred : list prediction)
  (list_true : list ground_truth) (g : accum) :
  length list_pred <> length list_true ->
  ((length list_true < length list_pred)%nat ->
   exists g',
     evaluate_results list_pred list_true g = Raised IndexError g'
     /\ forall c, c <> Background ->
          n_of c g'
          = (n_of c g + organ_weight_sum c (combine list_pred list_true))%Z)
  /\ ((length list_pred < length list_true)%nat ->
      exists rep g', evaluate_results list_pred list_true g = Returned rep g')
  /\ (forall (data : batch_source) (cal_samples batchsize : Z) (g0 : accum)
             (e : exn) (g1 : accum),
         main_from_loop data cal_samples batchsize g0
         <> MainEvaluated (Raised e g1)).
Proof.
  intros Hne. split; [|split].
  - intros Hlt. eexists. split.
    + unfold evaluate_results. rewrite eval_loop_short by lia. reflexivity.
    + intros c Hc. cbn [skipn]. rewrite run_n_of by exact Hc. reflexivity.
  - intros Hlt. rewrite (@evaluate_results_ok list_pred list_true g) by lia.
    eexists. eexists. reflexivity.
  - intros data cal_samples batchsize g0 e g1.
    apply main_evaluation_returns.
Qed.

Lemma length_mismatch_behaviour_witness :
  length [liver_pred; liver_pred] <> length [liver_truth]
  /\ exists g',
      evaluate_results [liver_pred; liver_pred] [liver_truth] accum0
      = Raised IndexError g'
      /\ forall c, c <> Background ->
           n_of c g'
           = (n_of c accum0
              + organ_weight_sum c
                  (combine [liver_pred; liver_pred] [liver_truth]))%Z.
Proof.
  assert (H : length [liver_pred; liver_pred] <> length [liver_truth])
    by discriminate.
  split; [exact H|].
  apply (proj1 (@length_mismatch_behaviour [liver_pred; liver_pred]
                  [liver_truth] accum0 H)).
  cbn [length]. lia.
Defined.

End LengthMismatch.


(** ** The Keras metrics of scores_losses.py *)

Section KerasMetrics.

Local Open Scope R_scope.

Lemma Rsum_app (l l' : list R) : Rsum (l ++ l') = Rsum l + Rsum l'.
Proof.
  induction l as [|x l IH].
  - change (Rsum l' = 0 + Rsum l'). ring.
  - cbn [app]. rewrite !Rsum_cons, IH. ring.
Qed.

Lemma Rgrid_sum_cons (r : list R) (g : grid R) :
  Rgrid_sum (r :: g) = Rsum r + Rgrid_sum g.
Proof. reflexivity. Qed.

Lemma K_sum_cons (g : grid R) (t : list (grid R)) :
  K_sum (g :: t) = Rgrid_sum g + K_sum t.
Proof. reflexivity. Qed.

Lemma grid_pairs_sum (f : R -> R -> R) (g1 g2 : grid R) :
  Rgrid_sum (grid_map2 f g1 g2)
  = Rsum (map (fun ab => f (fst ab) (snd ab)) (grid_pairs g1 g2)).
Proof.
  unfold grid_map2, grid_pairs. revert g2.
  induction g1 as [|r1 g1 IH]; intros [|r2 g2]; try reflexivity.
  rewrite !map2_cons, Rgrid_sum_cons. cbn [concat].
  rewrite map_app, Rsum_app, IH. reflexivity.
Qed.

(** The sum of an element-wise operation is a sum over the pairs. *)
Lemma tensor_pairs_sum (f : R -> R -> R) (a b : list (grid R)) :
  K_sum (tensor_map2 f a b)
  = Rsum (map (fun ab => f (fst ab) (snd ab)) (tensor_pairs a b)).
Proof.
  unfold tensor_map2, tensor_pairs. revert b.
  induction a as [|g1 a IH]; intros [|g2 b]; try reflexivity.
  rewrite !map2_cons, K_sum_cons. cbn [concat].
  rewrite map_app, Rsum_app, IH, grid_pairs_sum. reflexivity.
Qed.

Lemma combine_fst_snd (A B : Type) (r1 : list A) (r2 : list B) :
  length r1 = length r2 ->
  map fst (combine r1 r2) = r1 /\ map snd (combine r1 r2) = r2.
Proof.
  revert r2. induction r1 as [|x r1 IH]; intros [|y r2] H;
    try discriminate; [split; reflexivity|].
  cbn [length] in H. destruct (IH r2) as [E1 E2]; [lia|].
  cbn [combine map fst snd]. rewrite E1, E2. split; reflexivity.
Qed.

Lemma grid_pairs_sides (g1 g2 : grid R) :
  same_shape g1 g2 ->
  Rgrid_sum g1 = Rsum (map fst (grid_pairs g1 g2))
  /\ Rgrid_sum g2 = Rsum (map snd (grid_pairs g1 g2)).
Proof.
  intros H. unfold grid_pairs. induction H as [|r1 r2 g1 g2 Hr Hs IH].
  - split; reflexivity.
  - rewrite map2_cons. cbn [concat]. rewrite !map_app, !Rsum_app.
    rewrite !Rgrid_sum_cons. destruct IH as [<- <-].
    destruct (combine_fst_snd r1 r2 Hr) as [-> ->]. split; reflexivity.
Qed.

(** On two tensors of one shape the two sums are sums over the pairs. *)
Lemma tensor_pairs_sides (a b : list (grid R)) :
  same_shape4 a b ->
  K_sum a = Rsum (map fst (tensor_pairs a b))
  /\ K_sum b = Rsum (map snd (tensor_pairs a b)).
Proof.
  intros H. unfold tensor_pairs. induction H as [|g1 g2 a b Hg Hs IH].
  - split; reflexivity.
  - rewrite map2_cons. cbn [concat]. rewrite !map_app, !Rsum_app.
    rewrite !K_sum_cons. destruct IH as [<- <-].
    destruct (grid_pairs_sides Hg) as [<- <-]. split; reflexivity.
Qed.

Lemma Forall_combine (A B : Type) (P : A -> Prop) (Q : B -> Prop)
  (l : list A) (l' : list B) :
  Forall P l -> Forall Q l' ->
  Forall (fun xy => P (fst xy) /\ Q (snd xy)) (combine l l').
Proof.
  intros Hl. revert l'. induction Hl as [|x l Hx Hl IH]; intros l' Hl'.
  - constructor.
  - destruct Hl' as [|y l' Hy Hl']; [constructor|].
    cbn [combine]. constructor; [split; assumption | apply IH; assumption].
Qed.

Lemma Forall_concat (A : Type) (P : A -> Prop) (ls : list (list A)) :
  Forall (Forall P) ls -> Forall P (concat ls).
Proof.
  intros H. induction H as [|l ls Hl _ IH].
  - constructor.
  - cbn [concat]. apply Forall_app. split; assumption.
Qed.

Lemma grid_pairs_Forall (P Q : R -> Prop) (g1 g2 : grid R) :
  Forall (Forall P) g1 -> Forall (Forall Q) g2 ->
  Forall (fun ab => P (fst ab) /\ Q (snd ab)) (grid_pairs g1 g2).
Proof.
  intros H1 H2. unfold grid_pairs, map2. apply Forall_concat.
  apply Forall_map.
  generalize (Forall_combine H1 H2). apply Forall_impl.
  intros [r1 r2] [Hr1 Hr2]. cbn [fst snd] in *.
  apply Forall_combine; assumption.
Qed.

Lemma tensor_pairs_Forall (P Q : R -> Prop) (a b : list (grid R)) :
  Forall (Forall (Forall P)) a -> Forall (Forall (Forall Q)) b ->
  Forall (fun ab => P (fst ab) /\ Q (snd ab)) (tensor_pairs a b).
Proof.
  intros H1 H2. unfold tensor_pairs, map2. apply Forall_concat.
  apply Forall_map.
  generalize (Forall_combine H1 H2). apply Forall_impl.
  intros [g1 g2] [Hg1 Hg2]. cbn [fst snd] in *.
  apply grid_pairs_Forall; assumption.
Qed.

Lemma pairs_products (l : list (R * R)) :
  Forall unit_pair l ->
  0 <= Rsum (map (fun ab => fst ab * snd ab) l)
  /\ 2 * Rsum (map (fun ab => fst ab * snd ab) l)
     <= Rsum (map fst l) + Rsum (map snd l)
  /\ 0 <= Rsum (map (fun ab => fst ab * (1 - snd ab)) l)
  /\ 0 <= Rsum (map (fun ab => (1 - fst ab) * snd ab) l).
Proof.
  intros H. induction H as [|[a b] l [Ha Hb] _ IH].
  - cbn. lra.
  - cbn [map]. rewrite !Rsum_cons. cbn [fst snd] in *.
    destruct IH as [I1 [I2 [I3 I4]]].
    repeat split; nra.
Qed.

Lemma channel_In (A : Type) (c : organ_class) (px : px6 A) :
  In (channel c px) (channels px).
Proof. destruct c; cbn; tauto. Qed.

Lemma slice_Forall (P : R -> Prop) (c : organ_class) (y : tensor4) :
  Forall (Forall (Forall (fun px : px6 R => Forall P (channels px)))) y ->
  Forall (Forall (Forall P)) (slice4 c y).
Proof.
  intros H. unfold slice4, plane, grid_map. apply Forall_map.
  revert H. apply Forall_impl. intros g Hg. apply Forall_map.
  revert Hg. apply Forall_impl. intros r Hr. apply Forall_map.
  revert Hr. apply Forall_impl. intros px Hpx.
  rewrite Forall_forall in Hpx. apply Hpx, channel_In.
Qed.

Lemma slice_same_shape (c : organ_class) (y1 y2 : tensor4) :
  same_shape_tensor y1 y2 -> same_shape4 (slice4 c y1) (slice4 c y2).
Proof.
  intros H. unfold slice4. induction H as [|g1 g2 y1 y2 Hg _ IH].
  - constructor.
  - cbn [map]. constructor; [apply same_shape_maps, Hg | exact IH].
Qed.

Lemma slice_pairs_unit (c : organ_class) (y_true y_pred : tensor4) :
  unit_scores y_true -> unit_scores y_pred ->
  Forall unit_pair (tensor_pairs (slice4 c y_true) (slice4 c y_pred)).
Proof.
  intros Ht Hp.
  apply (@tensor_pairs_Forall (fun v => 0 <= v <= 1) (fun v => 0 <= v <= 1));
    apply slice_Forall; assumption.
Qed.

Lemma dice_channel_bounds (c : organ_class) (y_true y_pred : tensor4) :
  same_shape_tensor y_true y_pred ->
  unit_scores y_true -> unit_scores y_pred ->
  exists r, dice_channel c y_true y_pred = Fin r /\ 0 < r <= 1.
Proof.
  intros Hs Ht Hp. unfold dice_channel.
  rewrite tensor_pairs_sum.
  destruct (tensor_pairs_sides (slice_same_shape c Hs)) as [-> ->].
  destruct (pairs_products (slice_pairs_unit c Ht Hp)) as [I1 [I2 _]].
  rewrite fdiv_Fin by lra. eexists. split; [reflexivity|].
  apply ratio_bounds; lra.
Qed.

Lemma tversky_channel_bounds (c : organ_class) (y_true y_pred : tensor4) :
  same_shape_tensor y_true y_pred ->
  unit_scores y_true -> unit_scores y_pred ->
  exists r, tversky_channel c y_true y_pred = Fin r /\ 0 < r <= 1.
Proof.
  intros Hs Ht Hp. unfold tversky_channel, smooth, alpha.
  rewrite !tensor_pairs_sum.
  destruct (pairs_products (slice_pairs_unit c Ht Hp)) as [I1 [_ [I3 I4]]].
  rewrite fdiv_Fin by lra. eexists. split; [reflexivity|].
  apply ratio_bounds; lra.
Qed.

(** X11.  On two tensors of one shape with scores in [0, 1], each per-class
    Keras metric, Dice or Tversky, is a finite score in (0, 1]: the smoothing
    keeps the denominator at 1 or more. *)
Theorem keras_channel_range (c : organ_class) (y_true y_pred : tensor4) :
  same_shape_tensor y_true y_pred ->
  unit_scores y_true -> unit_scores y_pred ->
  (exists r, dice_channel c y_true y_pred = Fin r /\ 0 < r <= 1)
  /\ (exists r, tversky_channel c y_true y_pred = Fin r /\ 0 < r <= 1).
Proof.
  intros Hs Ht Hp. split.
  - apply dice_channel_bounds; assumption.
  - apply tversky_channel_bounds; assumption.
Qed.

(** X12.  Under the same conditions the weighted metric [dice] and
    [tversky_index] are finite scores in (0, 1], and [dice_loss] is one
    minus [dice], in [0, 1). *)
Theorem keras_weighted_range (y_true y_pred : tensor4) :
  same_shape_tensor y_true y_pred ->
  unit_scores y_true -> unit_scores y_pred ->
  (exists r,
      dice_of_organs y_true y_pred = Fin r /\ 0 < r <= 1
      /\ dice_loss y_true y_pred = Fin (1 - r))
  /\ (exists r, tversky_index y_true y_pred = Fin r /\ 0 < r <= 1).
Proof.
  intros Hs Ht Hp. split.
  - unfold dice_loss, dice_of_organs, dice_liver, dice_bladder, dice_lungs,
      dice_kidneys, dice_bones.
    destruct (dice_channel_bounds Liver Hs Ht Hp) as [d1 [-> B1]].
    destruct (dice_channel_bounds Bladder Hs Ht Hp) as [d2 [-> B2]].
    destruct (dice_channel_bounds Lungs Hs Ht Hp) as [d3 [-> B3]].
    destruct (dice_channel_bounds Kidneys Hs Ht Hp) as [d4 [-> B4]].
    destruct (dice_channel_bounds Bones Hs Ht Hp) as [d5 [-> B5]].
    cbn [fmul fadd]. rewrite fdiv_Fin by lra. eexists.
    split; [reflexivity|]. split; [apply ratio_bounds; lra | reflexivity].
  - unfold tversky_index, tversky_liver, tversky_bladder, tversky_lungs,
      tversky_kidneys, tversky_bones, weights_sum, liver_w, bladder_w,
      lungs_w, kidneys_w, bones_w.
    destruct (tversky_channel_bounds Liver Hs Ht Hp) as [d1 [-> B1]].
    destruct (tversky_channel_bounds Bladder Hs Ht Hp) as [d2 [-> B2]].
    destruct (tversky_channel_bounds Lungs Hs Ht Hp) as [d3 [-> B3]].
    destruct (tversky_channel_bounds Kidneys Hs Ht Hp) as [d4 [-> B4]].
    destruct (tversky_channel_bounds Bones Hs Ht Hp) as [d5 [-> B5]].
    cbn [fmul fadd]. rewrite fdiv_Fin by lra. eexists.
    split; [reflexivity|]. apply ratio_bounds; lra.
Qed.

Lemma keras_range_example_scores :
  same_shape_tensor [[[Px6 0 1 0 0 0 0; Px6 1 0 0 0 0 0]]]
                    [[[Px6 0.25 0.75 0 0 0 0; Px6 0.5 0.5 0 0 0 0]]]
  /\ unit_scores [[[Px6 0 1 0 0 0 0; Px6 1 0 0 0 0 0]]]
  /\ unit_scores [[[Px6 0.25 0.75 0 0 0 0; Px6 0.5 0.5 0 0 0 0]]].
Proof.
  split; [repeat constructor|].
  split; repeat first [apply Forall_nil | apply Forall_cons];
    cbn [c_background c_liver c_bladder c_lungs c_kidneys c_bones]; lra.
Qed.

Lemma keras_channel_range_witness :
  (exists r,
      dice_channel Liver [[[Px6 0 1 0 0 0 0; Px6 1 0 0 0 0 0]]]
                   [[[Px6 0.25 0.75 0 0 0 0; Px6 0.5 0.5 0 0 0 0]]] = Fin r
      /\ 0 < r <= 1)
  /\ (exists r,
         tversky_channel Liver [[[Px6 0 1 0 0 0 0; Px6 1 0 0 0 0 0]]]
                         [[[Px6 0.25 0.75 0 0 0 0; Px6 0.5 0.5 0 0 0 0]]]
         = Fin r
         /\ 0 < r <= 1).
Proof.
  destruct keras_range_example_scores as [Hs [Ht Hp]].
  exact (@keras_channel_range Liver _ _ Hs Ht Hp).
Defined.

Lemma keras_weighted_range_witness :
  (exists r,
      dice_of_organs [[[Px6 0 1 0 0 0 0; Px6 1 0 0 0 0 0]]]
                     [[[Px6 0.25 0.75 0 0 0 0; Px6 0.5 0.5 0 0 0 0]]] = Fin r
      /\ 0 < r <= 1
      /\ dice_loss [[[Px6 0 1 0 0 0 0; Px6 1 0 0 0 0 0]]]
                   [[[Px6 0.25 0.75 0 0 0 0; Px6 0.5 0.5 0 0 0 0]]]
         = Fin (1 - r))
  /\ (exists r,
         tversky_index [[[Px6 0 1 0 0 0 0; Px6 1 0 0 0 0 0]]]
                       [[[Px6 0.25 0.75 0 0 0 0; Px6 0.5 0.5 0 0 0 0]]]
         = Fin r
         /\ 0 < r <= 1).
Proof.
  destruct keras_range_example_scores as [Hs [Ht Hp]].
  exact (@keras_weighted_range _ _ Hs Ht Hp).
Defined.

Lemma Forall_combine_diag (A : Type) (P : A -> Prop) (l : list A) :
  Forall P l ->
  Forall (fun xy => fst xy = snd xy /\ P (fst xy)) (combine l l).
Proof.
  intros H. induction H as [|x l Hx _ IH]; cbn [combine]; constructor.
  - split; [reflexivity | exact Hx].
  - exact IH.
Qed.

Lemma tensor_pairs_diag (P : R -> Prop) (a : list (grid R)) :
  Forall (Forall (Forall P)) a ->
  Forall (fun ab => fst ab = snd ab /\ P (fst ab)) (tensor_pairs a a).
Proof.
  intros H. unfold tensor_pairs, map2. apply Forall_concat, Forall_map.
  generalize (Forall_combine_diag H). apply Forall_impl.
  intros [g1 g2] [E Hg]. cbn [fst snd] in *. subst g2.
  unfold grid_pairs, map2. apply Forall_concat, Forall_map.
  generalize (Forall_combine_diag Hg). apply Forall_impl.
  intros [r1 r2] [E Hr]. cbn [fst snd] in *. subst r2.
  apply Forall_combine_diag, Hr.
Qed.

Lemma diag_products (l : list (R * R)) :
  Forall (fun ab => fst ab = snd ab /\ (fst ab = 0 \/ fst ab = 1)) l ->
  Rsum (map (fun ab => fst ab * snd ab) l) = Rsum (map fst l)
  /\ Rsum (map snd l) = Rsum (map fst l)
  /\ Rsum (map (fun ab => fst ab * (1 - snd ab)) l) = 0
  /\ Rsum (map (fun ab => (1 - fst ab) * snd ab) l) = 0
  /\ 0 <= Rsum (map fst l).
Proof.
  intros H. induction H as [|[a b] l [E Hb] _ IH].
  - cbn. repeat split; lra.
  - cbn [map]. rewrite !Rsum_cons. cbn [fst snd] in *. subst b.
    destruct IH as [I1 [I2 [I3 [I4 I5]]]]. rewrite I1, I2, I3, I4.
    destruct Hb as [-> | ->]; repeat split; lra.
Qed.

Lemma same_shape_tensor_refl (y : tensor4) : same_shape_tensor y y.
Proof. induction y; constructor; [apply same_shape_refl | assumption]. Qed.

Lemma dice_channel_perfect (c : organ_class) (y : tensor4) :
  binary_scores y -> dice_channel c y y = Fin 1.
Proof.
  intros Hb. unfold dice_channel. rewrite tensor_pairs_sum.
  assert (Hs : same_shape4 (slice4 c y) (slice4 c y))
    by (apply slice_same_shape, same_shape_tensor_refl).
  destruct (tensor_pairs_sides Hs) as [E1 E2].
  rewrite E2 at 2. rewrite E1. clear E1 E2.
  assert (Hbin : Forall (Forall (Forall (fun v => v = 0 \/ v = 1)))
                        (slice4 c y))
    by (apply slice_Forall, Hb).
  destruct (diag_products (tensor_pairs_diag Hbin))
    as [-> [-> [_ [_ Hpos]]]].
  rewrite fdiv_Fin by lra. f_equal. field. lra.
Qed.

Lemma tversky_channel_perfect (c : organ_class) (y : tensor4) :
  binary_scores y -> tversky_channel c y y = Fin 1.
Proof.
  intros Hb. unfold tversky_channel, smooth, alpha. rewrite !tensor_pairs_sum.
  assert (Hbin : Forall (Forall (Forall (fun v => v = 0 \/ v = 1)))
                        (slice4 c y))
    by (apply slice_Forall, Hb).
  destruct (diag_products (tensor_pairs_diag Hbin))
    as [-> [_ [-> [-> Hpos]]]].
  rewrite fdiv_Fin by lra. f_equal. field. lra.
Qed.

(** X13.  On a binary prediction equal to its ground truth every per-class
    metric, Dice or Tversky, has equal numerator and denominator and is
    exactly 1.  (Nothing is said of the weighted [dice], [tversky_index] and
    [dice_loss]: there the source's rounding of the class weights shows.) *)
Theorem keras_perfect_prediction (y : tensor4) :
  binary_scores y ->
  forall c, dice_channel c y y = Fin 1 /\ tversky_channel c y y = Fin 1.
Proof.
  intros Hb c. split;
    [apply dice_channel_perfect | apply tversky_channel_perfect]; exact Hb.
Qed.

Lemma keras_perfect_prediction_witness :
  binary_scores [[[Px6 0 1 0 0 0 0; Px6 1 0 0 0 0 0]]]
  /\ dice_channel Liver [[[Px6 0 1 0 0 0 0; Px6 1 0 0 0 0 0]]]
                  [[[Px6 0 1 0 0 0 0; Px6 1 0 0 0 0 0]]] = Fin 1
  /\ tversky_channel Liver [[[Px6 0 1 0 0 0 0; Px6 1 0 0 0 0 0]]]
                     [[[Px6 0 1 0 0 0 0; Px6 1 0 0 0 0 0]]] = Fin 1.
Proof.
  assert (H : binary_scores [[[Px6 0 1 0 0 0 0; Px6 1 0 0 0 0 0]]]).
  { repeat first [apply Forall_nil | apply Forall_cons];
      cbn [c_background c_liver c_bladder c_lungs c_kidneys c_bones];
      first [left; reflexivity | right; reflexivity]. }
  split; [exact H|].
  exact (@keras_perfect_prediction [[[Px6 0 1 0 0 0 0; Px6 1 0 0 0 0 0]]] H
                                   Liver).
Defined.








End KerasMetrics.

(** ** Overlap and score *)

Section Overlap.

Local Open Scope R_scope.

(** X15.  With the sizes of the predicted and of the true mask held fixed,
    [dice_single] grows strictly with the size of their intersection; on
    disjoint masks it is 1 / (|pred| + |true| + 1).  Both hold whatever the
    dtypes of the two masks are. *)
Theorem dice_single_overlap (d1 d2 : dtype) (p1 t1 p2 t2 : grid bool) :
  same_shape p1 t1 -> same_shape p2 t2 ->
  card p1 = card p2 -> card t1 = card t2 ->
  ((card (inter p1 t1) < card (inter p2 t2))%Z ->
   exists r1 r2,
     dice_single (NdArray d1 p1) (NdArray d2 t1) = Fin r1
     /\ dice_single (NdArray d1 p2) (NdArray d2 t2) = Fin r2
     /\ r1 < r2)
  /\ (card (inter p1 t1) = 0%Z ->
      dice_single (NdArray d1 p1) (NdArray d2 t1)
      = Fin (1 / (IZR (card p1) + IZR (card t1) + 1))).
Proof.
  intros S1 S2 Ep Et.
  pose proof (card_nonneg p2) as Hp. pose proof (card_nonneg t2) as Ht.
  pose proof (card_nonneg (inter p1 t1)) as Hi1.
  pose proof (inter_le_l p2 t2) as Hl2.
  pose proof (inter_le_l p1 t1) as Hl1. rewrite Ep in Hl1.
  apply IZR_le in Hp, Ht, Hi1, Hl1, Hl2.
  destruct (dtype_eq_bool d1 d2) as [[-> ->] | Hd].
  - pose proof (dice_single_bools S1) as E1.
    pose proof (dice_single_bools S2) as E2.
    unfold bool_array in E1, E2. rewrite E1, E2, Ep, Et. split.
    + intros Hlt. eexists. eexists. split; [reflexivity|].
      split; [reflexivity|]. apply IZR_lt in Hlt.
      apply Rlt_le_trans
        with ((2 * IZR (card (inter p2 t2)) + 1)
              / (IZR (card p2) + IZR (card t2) - IZR (card (inter p1 t1)) + 1)).
      * unfold Rdiv. apply Rmult_lt_compat_r; [|lra].
        apply Rinv_0_lt_compat. lra.
      * unfold Rdiv. apply Rmult_le_compat_l; [lra|].
        apply Rinv_le_contravar; lra.
    + intros ->. f_equal. f_equal; lra.
  - rewrite (dice_single_number S1 Hd), (dice_single_number S2 Hd), Ep, Et.
    split.
    + intros Hlt. eexists. eexists. split; [reflexivity|].
      split; [reflexivity|]. apply IZR_lt in Hlt.
      unfold Rdiv. apply Rmult_lt_compat_r; [|lra].
      apply Rinv_0_lt_compat. lra.
    + intros ->. f_equal. f_equal; lra.
Qed.

Lemma dice_single_overlap_witness :
  same_shape [[true; false; false]] [[false; true; false]]
  /\ (card (inter [[true; false; false]] [[false; true; false]])
      < card (inter [[true; false; false]] [[true; false; false]]))%Z
  /\ (exists r1 r2,
         dice_single (bool_array [[true; false; false]])
                     (number_array [[false; true; false]]) = Fin r1
         /\ dice_single (bool_array [[true; false; false]])
                        (number_array [[true; false; false]]) = Fin r2
         /\ r1 < r2)
  /\ dice_single (bool_array [[true; false; false]])
                 (number_array [[false; true; false]])
     = Fin (1 / (IZR (card [[true; false; false]])
                 + IZR (card [[false; true; false]]) + 1)).
Proof.
  assert (H1 : same_shape [[true; false; false]] [[false; true; false]])
    by (repeat constructor).
  assert (H2 : same_shape [[true; false; false]] [[true; false; false]])
    by (repeat constructor).
  destruct (@dice_single_overlap np_bool np_number
              [[true; false; false]] [[false; true; false]]
              [[true; false; false]] [[true; false; false]]
              H1 H2 eq_refl eq_refl) as [Hgrow Hdisjoint].
  split; [exact H1|]. split; [reflexivity|].
  split; [apply Hgrow; reflexivity | apply Hdisjoint; reflexivity].
Defined.

End Overlap.
